(** * senseinfo frontend: validators, API gateway, auth service, setup wizard

    A shallow embedding of the TypeScript sources
      - frontend/src/utils/validators.ts
      - frontend/src/services/api.ts
      - frontend/src/services/authService.ts
      - frontend/src/pages/Setup.tsx
    and the properties of the login handshake that are stated about them. *)

From Stdlib Require Import ZArith NArith Ascii String List Bool Lia.
From stdpp Require Import gmap strings list.

Local Open Scope string_scope.
Set Warnings "-register-all".

(** ** JavaScript values *)

Module JS.

(** A JavaScript string is a sequence of UTF-16 code units. *)
Definition jsstring : Type := list N.

Definition charCode (a : ascii) : N := N_of_ascii a.

(** Embedding of ASCII literals of the source. *)
Fixpoint js (s : string) : jsstring :=
  match s with
  | EmptyString => []
  | String a r => charCode a :: js r
  end.

(** The values a JSON body or an untyped ([any]) variable can hold.
    JSON numbers are kept as integers: only their truthiness is used. *)
Inductive jsval : Type :=
| VUndefined
| VNull
| VBool (b : bool)
| VNum (z : Z)
| VStr (s : jsstring)
| VObj (fields : list (string * jsval)).

(** [ToBoolean]. *)
Definition truthy (v : jsval) : bool :=
  match v with
  | VUndefined | VNull => false
  | VBool b => b
  | VNum z => negb (z =? 0)%Z
  | VStr s => match s with [] => false | _ => true end
  | VObj _ => true
  end.

Fixpoint jsstring_eqb (a b : jsstring) : bool :=
  match a, b with
  | [], [] => true
  | x :: a', y :: b' => (x =? y)%N && jsstring_eqb a' b'
  | _, _ => false
  end.

(** [v === "literal"]. *)
Definition strict_eq_str (v : jsval) (lit : jsstring) : bool :=
  match v with
  | VStr s => jsstring_eqb s lit
  | _ => false
  end.

Fixpoint assoc (k : string) (fs : list (string * jsval)) : jsval :=
  match fs with
  | [] => VUndefined
  | (k', v) :: fs' => if String.eqb k k' then v else assoc k fs'
  end.

(** Property read [v.k] for the data keys the sources use.  Reading a
    property of [undefined] or [null] throws a TypeError ([None]); a
    primitive has none of these keys. *)
Definition prop (v : jsval) (k : string) : option jsval :=
  match v with
  | VUndefined | VNull => None
  | VObj fs => Some (assoc k fs)
  | _ => Some VUndefined
  end.

(** [s.startsWith(p)], returning the remainder after the prefix. *)
Fixpoint strip_prefix (p s : jsstring) : option jsstring :=
  match p, s with
  | [], _ => Some s
  | x :: p', y :: s' => if (x =? y)%N then strip_prefix p' s' else None
  | _ :: _, [] => None
  end.

(** [s.replace(pat, "")] with a string pattern: the first occurrence of
    [pat] is removed, the rest of [s] is kept. *)
Fixpoint replace_first_with_empty (pat s : jsstring) : jsstring :=
  match strip_prefix pat s with
  | Some rest => rest
  | None => match s with
            | [] => []
            | c :: s' => c :: replace_first_with_empty pat s'
            end
  end.

(** [s.startsWith(p)]. *)
Definition startsWith (p s : jsstring) : bool :=
  match strip_prefix p s with
  | Some _ => true
  | None => false
  end.

(** The WhiteSpace and LineTerminator code units of ECMAScript: what
    [trim] strips: TAB to CR, SP, NBSP, U+1680, U+2000 to U+200A,
    U+2028, U+2029, U+202F, U+205F, U+3000 and U+FEFF. *)
Definition is_white_space (c : N) : bool :=
  ((9 <=? c) && (c <=? 13) || (c =? 32) || (c =? 160) || (c =? 5760) ||
   (8192 <=? c) && (c <=? 8202) || (c =? 8232) || (c =? 8233) ||
   (c =? 8239) || (c =? 8287) || (c =? 12288) || (c =? 65279))%N.

Fixpoint trimStart (s : jsstring) : jsstring :=
  match s with
  | [] => []
  | c :: s' => if is_white_space c then trimStart s' else s
  end.

Definition trimEnd (s : jsstring) : jsstring := rev (trimStart (rev s)).

(** [s.trim()]. *)
Definition trim (s : jsstring) : jsstring := trimEnd (trimStart s).

(** [parts.join(sep)] on an array of strings. *)
Fixpoint join (sep : jsstring) (parts : list jsstring) : jsstring :=
  match parts with
  | [] => []
  | x :: rest =>
      match rest with
      | [] => x
      | _ :: _ => (x ++ sep ++ join sep rest)%list
      end
  end.


End JS.
Import JS.

(** ** The [ApiError] interface of api.ts *)

Module ApiError.

Record FieldError : Type := mkFieldError {
  field : jsstring;
  message : jsstring
}.

Record Data : Type := mkData {
  detail : jsstring;
  errors : option (list FieldError)
}.

Record Response : Type := mkResponse {
  data : Data;
  status : Z
}.

Record t : Type := mk {
  response : option Response;
  error_message : jsstring
}.

End ApiError.

(** ** The regular expressions of validators.ts

    The patterns of the validators are sequences of anchors and of
    character classes under a counted quantifier; [test] is
    [RegExp.prototype.test] for a literal without flags: the pattern is
    tried at every start index, quantifiers are greedy and backtrack. *)

Module RegExp.

Definition charclass : Type := list (N * N).

Inductive node : Type :=
| Bol                                                  (* ^ *)
| Eol                                                  (* $ *)
| Rep (cs : charclass) (min : nat) (max : option nat). (* [cs]{min,max} *)

Definition pattern : Type := list node.

Definition in_class (cs : charclass) (c : N) : bool :=
  existsb (fun r => (fst r <=? c)%N && (c <=? snd r)%N) cs.

Definition may_take (max : option nat) : bool :=
  match max with
  | Some O => false
  | _ => true
  end.

Definition taken (max : option nat) : option nat :=
  match max with
  | Some m => Some (pred m)
  | None => None
  end.

(** Greedy quantifier with continuation [k]: consume one more character
    of the class when allowed, otherwise (or on failure of the rest)
    stop here if the lower bound has been reached. *)
Fixpoint rep (cs : charclass) (min : nat) (max : option nat)
    (k : nat -> jsstring -> bool) (idx : nat) (s : jsstring) {struct s} : bool :=
  match s with
  | c :: s' =>
      if in_class cs c && may_take max
      then rep cs (pred min) (taken max) k (S idx) s' || ((min =? 0)%nat && k idx s)
      else (min =? 0)%nat && k idx s
  | [] => (min =? 0)%nat && k idx s
  end.

(** Match the pattern at index [idx], [s] being the input from there. *)
Fixpoint run (p : pattern) (idx : nat) (s : jsstring) {struct p} : bool :=
  match p with
  | [] => true
  | Bol :: p' => (idx =? 0)%nat && run p' idx s
  | Eol :: p' => match s with [] => run p' idx s | _ :: _ => false end
  | Rep cs mn mx :: p' => rep cs mn mx (run p') idx s
  end.

Fixpoint search (p : pattern) (idx : nat) (s : jsstring) {struct s} : bool :=
  run p idx s ||
  match s with
  | [] => false
  | _ :: s' => search p (S idx) s'
  end.

Definition test (p : pattern) (s : jsstring) : bool := search p 0 s.

(** Pattern syntax. *)
Definition chr (a : ascii) : N * N := (charCode a, charCode a).
Definition range (lo hi : ascii) : N * N := (charCode lo, charCode hi).
Definition digit : charclass := [range "0" "9"].        (* \d *)
Definition one (cs : charclass) : node := Rep cs 1 (Some 1).
Definition plus (cs : charclass) : node := Rep cs 1 None.
Definition exactly (n : nat) (cs : charclass) : node := Rep cs n (Some n).

End RegExp.

(** ** frontend/src/utils/validators.ts *)

Module Validators.
Import RegExp.

(** [/^\+[1-9]\d{10,14}$/] *)
Definition phoneRegex : pattern :=
  [Bol; one [chr "+"]; one [range "1" "9"]; Rep digit 10 (Some 14); Eol].

Definition validatePhoneNumber (phone : jsstring) : bool :=
  test phoneRegex phone.

(** [/^\d+$/] *)
Definition apiIdRegex : pattern := [Bol; plus digit; Eol].

(** [/^[a-f0-9]{32}$/] *)
Definition apiHashRegex : pattern :=
  [Bol; exactly 32 [range "a" "f"; range "0" "9"]; Eol].

Definition validateApiCredentials (apiId apiHash : jsstring) : bool :=
  test apiIdRegex apiId && test apiHashRegex apiHash.

(** The validators below are the ones no handshake step depends on. *)

Definition formatPhoneNumber (phone : jsstring) : jsstring :=
  if negb (startsWith (js "+") phone)
  then (js "+" ++ phone)%list
  else phone.

(** [/^@[a-zA-Z0-9_]{5,32}$/] *)
Definition usernameRegex : pattern :=
  [Bol; one [chr "@"];
   Rep [range "a" "z"; range "A" "Z"; range "0" "9"; chr "_"] 5 (Some 32);
   Eol].

Definition validateChannelUsername (username : jsstring) : bool :=
  test usernameRegex username.

Definition validateKeyword (keyword : jsstring) : bool :=
  (1 <=? length (trim keyword))%nat && (length (trim keyword) <=? 100)%nat.

Record PasswordStrength : Type := mkPasswordStrength {
  isValid : bool;
  errors : list jsstring
}.

(** [/[A-Z]/], [/[a-z]/], [/\d/] and [/[!@#$%^&*]/]. *)
Definition upperRegex : pattern := [one [range "A" "Z"]].
Definition lowerRegex : pattern := [one [range "a" "z"]].
Definition digitRegex : pattern := [one digit].
Definition specialRegex : pattern :=
  [one [chr "!"; chr "@"; chr "#"; chr "$"; chr "%"; chr "^"; chr "&"; chr "*"]].

(** [if (cond) errors.push(msg)]. *)
Definition push_if (cond : bool) (msg : string) (errors : list jsstring)
    : list jsstring :=
  if cond then (errors ++ [js msg])%list else errors.

Definition validatePasswordStrength (password : jsstring) : PasswordStrength :=
  let errors := [] in
  let errors :=
    push_if (length password <? 8)%nat
            "Password must be at least 8 characters long" errors in
  let errors :=
    push_if (negb (test upperRegex password))
            "Password must contain at least one uppercase letter" errors in
  let errors :=
    push_if (negb (test lowerRegex password))
            "Password must contain at least one lowercase letter" errors in
  let errors :=
    push_if (negb (test digitRegex password))
            "Password must contain at least one number" errors in
  let errors :=
    push_if (negb (test specialRegex password))
            "Password must contain at least one special character" errors in
  mkPasswordStrength (length errors =? 0)%nat errors.

(** [[^\s@]] over 16-bit code units: the code units from 0 to 0xFFFF
    that are neither white space nor [@], as ranges. *)
Definition not_space_or_at : charclass :=
  [(0, 8); (14, 31); (33, 63); (65, 159); (161, 5759); (5761, 8191);
   (8203, 8231); (8234, 8238); (8240, 8286); (8288, 12287);
   (12289, 65278); (65280, 65535)]%N.

(** [/^[^\s@]+@[^\s@]+\.[^\s@]+$/] *)
Definition emailRegex : pattern :=
  [Bol; plus not_space_or_at; one [chr "@"]; plus not_space_or_at;
   one [chr "."]; plus not_space_or_at; Eol].

Definition validateEmail (email : jsstring) : bool :=
  test emailRegex email.

(** [formatValidationError], on an error of the shape of [ApiError]:
    an array is truthy even when empty, a string only when non-empty. *)
Definition formatValidationError (error : ApiError.t) : jsstring :=
  match ApiError.response error with
  | Some r =>
      match ApiError.errors (ApiError.data r) with
      | Some errs =>
          join (js ", ")
               (map (fun err =>
                       (ApiError.field err ++ js ": " ++ ApiError.message err)%list)
                    errs)
      | None =>
          match ApiError.detail (ApiError.data r) with
          | _ :: _ => ApiError.detail (ApiError.data r)
          | [] => js "Validation failed"
          end
      end
  | None => js "Validation failed"
  end.

End Validators.

(** ** frontend/src/services/api.ts

    The axios instance with its two interceptors.  The backend is a
    function from the request that leaves the browser to the reply that
    comes back.  Toasts and console logging touch neither the storage
    nor the wizard and are left out. *)

Module Api.

Inductive Method : Type := GET | POST | PUT | PATCH | DELETE.

Record Config : Type := mkConfig {
  method : Method;
  url : string;
  payload : jsval;
  Authorization : option jsstring
}.

Inductive Reply : Type :=
| NoReply
| Http (code : Z) (hdrs : gmap string jsstring) (body : jsval).

Record Response : Type := mkResponse {
  status : Z;
  headers : gmap string jsstring;
  data : jsval
}.

Inductive Thrown : Type :=
| AxiosError (response : option Response)
| TypeError.

Inductive Result (A : Type) : Type :=
| Ok (a : A)
| Throw (e : Thrown).
Arguments Ok {A} a.
Arguments Throw {A} e.

(** The part of the browser the sources act on: [localStorage], the
    document location with a pending assignment to
    [window.location.href], and the requests sent so far (latest first). *)
Record Browser : Type := mkBrowser {
  localStorage : gmap string jsstring;
  location : string;
  href : option string;
  network : list Config
}.

(** [localStorage] as a total store: the quota error of [setItem] is
    not modelled. *)
Definition getItem (k : string) (b : Browser) : option jsstring :=
  localStorage b !! k.

Definition setItem (k : string) (v : jsstring) (b : Browser) : Browser :=
  mkBrowser (<[k := v]> (localStorage b)) (location b) (href b) (network b).

Definition removeItem (k : string) (b : Browser) : Browser :=
  mkBrowser (delete k (localStorage b)) (location b) (href b) (network b).

Definition assign_href (u : string) (b : Browser) : Browser :=
  mkBrowser (localStorage b) (location b) (Some u) (network b).

Definition send (c : Config) (b : Browser) : Browser :=
  mkBrowser (localStorage b) (location b) (href b) (c :: network b).

(** Request interceptor: attach the bearer token when one is stored. *)
Definition onRequest (b : Browser) (config : Config) : Config :=
  match getItem "auth_token" b with
  | Some ((_ :: _) as token) =>
      mkConfig (method config) (url config) (payload config)
               (Some (js "Bearer " ++ token)%list)
  | _ => config
  end.

(** Response interceptor, error branch. *)
Definition onRejected (response : option Response) (b : Browser) : Browser :=
  match response with
  | Some r =>
      if (status r =? 401)%Z
      then assign_href "/setup"
             (removeItem "telegram_api_hash"
               (removeItem "telegram_api_id"
                 (removeItem "auth_token" b)))
      else b
  | None => b
  end.

(** axios' default [validateStatus]. *)
Definition validateStatus (code : Z) : bool :=
  (200 <=? code)%Z && (code <? 300)%Z.

Definition request (backend : Config -> Reply) (m : Method) (u : string)
    (d : jsval) (b : Browser) : Browser * Result Response :=
  let config := onRequest b (mkConfig m u d None) in
  let b1 := send config b in
  match backend config with
  | NoReply => (onRejected None b1, Throw (AxiosError None))
  | Http code hdrs body =>
      let response := mkResponse code hdrs body in
      if validateStatus code
      then (b1, Ok response)
      else (onRejected (Some response) b1, Throw (AxiosError (Some response)))
  end.

Definition post (backend : Config -> Reply) (u : string) (d : jsval)
    (b : Browser) : Browser * Result Response :=
  request backend POST u d b.

Definition get (backend : Config -> Reply) (u : string)
    (b : Browser) : Browser * Result Response :=
  request backend GET u VUndefined b.

(** The reply of the backend to the request [m u d] issued from [b]. *)
Definition reply_to (backend : Config -> Reply) (m : Method) (u : string)
    (d : jsval) (b : Browser) : Reply :=
  backend (onRequest b (mkConfig m u d None)).

(** The request is answered with a status axios resolves. *)
Definition resolves (r : Reply) : Prop :=
  match r with
  | NoReply => False
  | Http code _ _ => validateStatus code = true
  end.

(** The request fails, and not by a 401: no reply at all, or a status
    outside 2xx other than 401. *)
Definition fails_not_401 (r : Reply) : Prop :=
  match r with
  | NoReply => True
  | Http code _ _ => validateStatus code = false /\ code <> 401%Z
  end.

End Api.

(** ** frontend/src/services/authService.ts *)

Module AuthService.
Import Api.

Definition startAuth (backend : Config -> Reply) (phoneNumber : jsstring)
    (b : Browser) : Browser * Result jsval :=
  let '(b1, r) :=
    post backend "/auth/telegram/start"
         (VObj [("phone_number", VStr phoneNumber)]) b in
  match r with
  | Throw e => (b1, Throw e)
  | Ok response =>
      match prop (data response) "data" with
      | Some inner => (b1, Ok inner)
      | None => (b1, Throw TypeError)
      end
  end.

(** The token written by [verifyCode] and [verify2FA]:
    [response.headers["authorization"]], when truthy, without its first
    ["Bearer "]. *)
Definition storeToken (response : Response) (b : Browser) : Browser :=
  match headers response !! "authorization" with
  | Some ((_ :: _) as token) =>
      setItem "auth_token" (replace_first_with_empty (js "Bearer ") token) b
  | _ => b
  end.

Definition verifyCode (backend : Config -> Reply) (d : jsval)
    (b : Browser) : Browser * Result jsval :=
  let '(b1, r) := post backend "/auth/telegram/verify" d b in
  match r with
  | Throw e => (b1, Throw e)
  | Ok response =>
      match prop (data response) "data" with
      | None => (b1, Throw TypeError)
      | Some inner =>
          match prop inner "status", prop inner "user_id" with
          | Some st, Some uid =>
              if strict_eq_str st (js "authenticated") && truthy uid
              then (storeToken response b1, Ok inner)
              else (b1, Ok inner)
          | _, _ => (b1, Throw TypeError)
          end
      end
  end.

Definition verify2FA (backend : Config -> Reply) (d : jsval)
    (b : Browser) : Browser * Result jsval :=
  let '(b1, r) := post backend "/auth/telegram/2fa" d b in
  match r with
  | Throw e => (b1, Throw e)
  | Ok response =>
      match prop (data response) "data" with
      | None => (b1, Throw TypeError)
      | Some inner =>
          match prop inner "status" with
          | Some st =>
              if strict_eq_str st (js "authenticated")
              then (storeToken response b1, Ok inner)
              else (b1, Ok inner)
          | None => (b1, Throw TypeError)
          end
      end
  end.

Definition clearAuthData (b : Browser) : Browser :=
  removeItem "user_data"
    (removeItem "telegram_api_hash"
      (removeItem "telegram_api_id"
        (removeItem "auth_token" b))).

Definition logout (backend : Config -> Reply) (b : Browser)
    : Browser * Result unit :=
  let '(b1, r) := post backend "/auth/logout" VUndefined b in
  match r with
  | Throw e => (b1, Throw e)
  | Ok _ => (clearAuthData b1, Ok tt)
  end.

(** [!!localStorage.getItem("auth_token")] *)
Definition isAuthenticated (b : Browser) : bool :=
  match getItem "auth_token" b with
  | Some (_ :: _) => true
  | _ => false
  end.

Definition getApiCredentials (b : Browser) : option jsstring * option jsstring :=
  (getItem "telegram_api_id" b, getItem "telegram_api_hash" b).


End AuthService.

(** ** frontend/src/pages/Setup.tsx

    The wizard component: its [useState] cells and its four submit
    handlers.  A handler runs to completion for one reply of the
    backend.  The delayed client-side [navigate("/dashboard")] after the
    last step is a timer and is not part of the handler's result: the
    handlers of the code and of the password step end with the wizard
    at "complete", two seconds before that navigation. *)

Module Setup.
Import Api.

Inductive Step : Type :=
| step_api | step_phone | step_code | step_password | step_complete.

Record SetupFormData : Type := mkFormData {
  apiId : jsstring;
  apiHash : jsstring;
  phoneNumber : jsstring;
  code : jsstring;
  password : jsstring
}.

Record State : Type := mkState {
  step : Step;
  formData : SetupFormData;
  loading : bool;
  phoneCodeHash : jsval
}.

(** The component as mounted: the initial values of its [useState]s. *)
Definition initial : State :=
  mkState step_api (mkFormData [] [] [] [] []) false (VStr []).

Definition setStep (s : Step) (st : State) : State :=
  mkState s (formData st) (loading st) (phoneCodeHash st).

Definition setLoading (l : bool) (st : State) : State :=
  mkState (step st) (formData st) l (phoneCodeHash st).

Definition setPhoneCodeHash (h : jsval) (st : State) : State :=
  mkState (step st) (formData st) (loading st) h.

Definition handleApiSubmit (st : State) (b : Browser) : State * Browser :=
  let st1 := setLoading true st in
  let b1 := setItem "telegram_api_id" (apiId (formData st)) b in
  let b2 := setItem "telegram_api_hash" (apiHash (formData st)) b1 in
  let st2 := setStep step_phone st1 in
  (setLoading false st2, b2).

(** [localStorage.getItem] yields a string or [null]. *)
Definition stored (k : string) (b : Browser) : jsval :=
  match getItem k b with
  | Some s => VStr s
  | None => VNull
  end.

(** The request bodies of the three network steps. *)
Definition startPayload (st : State) : jsval :=
  VObj [("phone_number", VStr (js "+" ++ phoneNumber (formData st))%list)].

Definition verifyPayload (st : State) (b : Browser) : jsval :=
  let apiId := stored "telegram_api_id" b in
  let apiHash := stored "telegram_api_hash" b in
  VObj [("phone_number", VStr (js "+" ++ phoneNumber (formData st))%list);
        ("phone_code_hash", phoneCodeHash st);
        ("code", VStr (code (formData st)));
        ("api_id", apiId);
        ("api_hash", apiHash)].

Definition passwordPayload (st : State) : jsval :=
  VObj [("phone_number", VStr (js "+" ++ phoneNumber (formData st))%list);
        ("password", VStr (password (formData st)))].

Definition handlePhoneSubmit (backend : Config -> Reply) (st : State)
    (b : Browser) : State * Browser :=
  let st1 := setLoading true st in
  let '(b1, r) := post backend "/auth/telegram/start" (startPayload st) b in
  let st2 :=
    match r with
    | Ok response =>
        match prop (data response) "status",
              prop (data response) "phone_code_hash",
              prop (data response) "requires_2fa" with
        | Some status, Some hash, Some requires_2fa =>
            if strict_eq_str status (js "code_sent")
            then setStep step_code (setPhoneCodeHash hash st1)
            else if truthy requires_2fa
                 then setStep step_password st1
                 else st1
        | _, _, _ => st1                      (* TypeError, caught *)
        end
    | Throw _ => st1                          (* caught *)
    end in
  (setLoading false st2, b1).

Definition handleCodeSubmit (backend : Config -> Reply) (st : State)
    (b : Browser) : State * Browser :=
  let st1 := setLoading true st in
  let '(b1, r) := post backend "/auth/telegram/verify" (verifyPayload st b) b in
  let st2 :=
    match r with
    | Ok response =>
        match prop (data response) "status",
              prop (data response) "requires_2fa" with
        | Some status, Some requires_2fa =>
            if strict_eq_str status (js "authenticated")
            then setStep step_complete st1
            else if truthy requires_2fa
                 then setStep step_password st1
                 else st1
        | _, _ => st1
        end
    | Throw _ => st1
    end in
  (setLoading false st2, b1).

Definition handlePasswordSubmit (backend : Config -> Reply) (st : State)
    (b : Browser) : State * Browser :=
  let st1 := setLoading true st in
  let '(b1, r) := post backend "/auth/telegram/2fa" (passwordPayload st) b in
  let st2 :=
    match r with
    | Ok response =>
        match prop (data response) "status" with
        | Some status =>
            if strict_eq_str status (js "authenticated")
            then setStep step_complete st1
            else st1
        | None => st1
        end
    | Throw _ => st1
    end in
  (setLoading false st2, b1).

(** A pending assignment to [window.location.href] loads the document
    anew once the running handler has finished: every component state
    is gone and the wizard is mounted with its initial state;
    [localStorage] survives.  Which page the route guard of App.tsx
    shows afterwards is outside the handshake. *)
Definition load (p : State * Browser) : State * Browser :=
  match href (snd p) with
  | Some u =>
      (initial, mkBrowser (localStorage (snd p)) u None (network (snd p)))
  | None => p
  end.

(** One submit event of the wizard. *)
Definition submit (h : State -> Browser -> State * Browser)
    (st : State) (b : Browser) : State * Browser :=
  load (h st b).

(** Any other request of the application (channels, keywords, messages)
    issued while the page is up. *)
Definition call (backend : Config -> Reply) (m : Method) (u : string)
    (d : jsval) (st : State) (b : Browser) : State * Browser :=
  load (st, fst (request backend m u d b)).

(** [renderStep] and the form it puts on screen.  Every input of the
    wizard is [required] and the button of the form is disabled while
    [loading]: the browser runs the form's [onSubmit] only when the
    button is enabled and no input of the form is empty.  ([Input],
    whose source is not among the files, is taken to hand [required] on
    to the native input.)  The inputs carry no pattern; the API id is a
    number input, whose value is empty unless the text is a number.  At
    the last step no form is rendered. *)
Definition valueMissing (v : jsstring) : bool :=
  match v with
  | [] => true
  | _ :: _ => false
  end.

Definition checkValidity (st : State) : bool :=
  match step st with
  | step_api =>
      negb (valueMissing (apiId (formData st))) &&
      negb (valueMissing (apiHash (formData st)))
  | step_phone => negb (valueMissing (phoneNumber (formData st)))
  | step_code => negb (valueMissing (code (formData st)))
  | step_password => negb (valueMissing (password (formData st)))
  | step_complete => false
  end.

Definition canSubmit (st : State) : bool :=
  negb (loading st) && checkValidity st.

(** The operator submits the form on screen. *)
Definition renderStep_onSubmit (backend : Config -> Reply) (st : State)
    (b : Browser) : State * Browser :=
  if canSubmit st
  then match step st with
       | step_api => submit handleApiSubmit st b
       | step_phone => submit (handlePhoneSubmit backend) st b
       | step_code => submit (handleCodeSubmit backend) st b
       | step_password => submit (handlePasswordSubmit backend) st b
       | step_complete => (st, b)
       end
  else (st, b).

End Setup.

(** ** frontend/src/App.tsx

    The authentication flag computed once when the application is
    mounted, and the route table.  The status probe goes through
    [fetch], not through the axios instance: [Some ok] is a response
    with that [ok], [None] a rejected fetch. *)

Module App.
Import Api.

Definition checkAuth (probe : option bool) (b : Browser) : bool :=
  match getItem "auth_token" b with
  | Some (_ :: _) => true
  | _ =>
      match probe with
      | Some true => true
      | _ => false
      end
  end.

Inductive Page : Type := Setup | Dashboard | Channels | Keywords.

Inductive Element : Type :=
| Show (p : Page)
| Navigate (to : string).

(** The [<Routes>] table, in source order. *)
Definition routes (isAuthenticated : bool) : list (string * Element) :=
  [("/setup", if negb isAuthenticated then Show Setup else Navigate "/dashboard");
   ("/dashboard", if isAuthenticated then Show Dashboard else Navigate "/setup");
   ("/channels", if isAuthenticated then Show Channels else Navigate "/setup");
   ("/keywords", if isAuthenticated then Show Keywords else Navigate "/setup");
   ("/", Navigate (if isAuthenticated then "/dashboard" else "/setup"))].

(** The table is looked up with the paths as written (the router
    itself also accepts another letter case and a trailing slash). *)
Fixpoint lookup_route (path : string) (table : list (string * Element))
    : option Element :=
  match table with
  | [] => None
  | (p, e) :: rest => if String.eqb path p then Some e else lookup_route path rest
  end.

(** The page on screen at [path], following at most [fuel] redirects. *)
Fixpoint render (fuel : nat) (isAuthenticated : bool) (path : string)
    : option Page :=
  match lookup_route path (routes isAuthenticated) with
  | Some (Show p) => Some p
  | Some (Navigate to) =>
      match fuel with
      | O => None
      | S fuel' => render fuel' isAuthenticated to
      end
  | None => None
  end.

(** The router as the layout components see it: the flag of [App] and
    the current path; [navigate] changes the path only. *)
Record Router : Type := mkRouter {
  isAuthenticated : bool;
  path : string
}.

Definition navigate (to : string) (r : Router) : Router :=
  mkRouter (isAuthenticated r) to.

End App.

(** ** frontend/src/components/layout: the two logout buttons *)

Module Sidebar.
Import Api.

Definition handleLogout (b : Browser) : Browser :=
  assign_href "/setup" (removeItem "auth_token" b).

End Sidebar.

Module Header.
Import Api.

Definition handleLogout
    (onLogout : option (App.Router * Browser -> App.Router * Browser))
    (w : App.Router * Browser) : App.Router * Browser :=
  match onLogout with
  | Some f => f w
  | None => (App.navigate "/setup" (fst w), removeItem "auth_token" (snd w))
  end.

End Header.

(** ** frontend/src/pages/Channels.tsx: loading and adding channels *)

Module Channels.
Import Api.

Record State : Type := mkState {
  channels : jsval;
  loading : bool;
  isAddDialogOpen : bool;
  newChannelUsername : jsstring;
  addingChannel : bool
}.

Definition setChannels (c : jsval) (st : State) : State :=
  mkState c (loading st) (isAddDialogOpen st) (newChannelUsername st)
          (addingChannel st).

Definition setLoading (l : bool) (st : State) : State :=
  mkState (channels st) l (isAddDialogOpen st) (newChannelUsername st)
          (addingChannel st).

Definition setIsAddDialogOpen (o : bool) (st : State) : State :=
  mkState (channels st) (loading st) o (newChannelUsername st)
          (addingChannel st).

Definition setNewChannelUsername (u : jsstring) (st : State) : State :=
  mkState (channels st) (loading st) (isAddDialogOpen st) u
          (addingChannel st).

Definition setAddingChannel (a : bool) (st : State) : State :=
  mkState (channels st) (loading st) (isAddDialogOpen st)
          (newChannelUsername st) a.

Definition loadChannels (backend : Config -> Reply) (st : State)
    (b : Browser) : State * Browser :=
  let st1 := setLoading true st in
  let '(b1, r) := get backend "/channels" b in
  let st2 :=
    match r with
    | Ok response =>
        match prop (data response) "channels" with
        | Some cs => setChannels cs st1
        | None => st1                         (* TypeError, caught *)
        end
    | Throw _ => st1                          (* caught *)
    end in
  (setLoading false st2, b1).

Definition handleAddChannel (backend : Config -> Reply) (st : State)
    (b : Browser) : State * Browser :=
  if negb (startsWith (js "@") (newChannelUsername st))
  then (st, b)
  else
    let st1 := setAddingChannel true st in
    let '(b1, r) :=
      post backend "/channels"
           (VObj [("username", VStr (newChannelUsername st))]) b in
    match r with
    | Ok _ =>
        let st2 := setIsAddDialogOpen false (setNewChannelUsername [] st1) in
        let '(st3, b2) := loadChannels backend st2 b1 in
        (setAddingChannel false st3, b2)
    | Throw _ => (setAddingChannel false st1, b1)
    end.

End Channels.

(** ** frontend/src/pages/Dashboard.tsx: the text helper *)

Module Dashboard.


End Dashboard.

(** ** Sample browsers, wizard states and backends *)

Module Scenario.
Import Api Setup.

(** A browser on the dashboard with a stored session and credentials. *)
Definition signed_in : Browser :=
  mkBrowser
    (<["auth_token" := js "t0k3n"]>
      (<["telegram_api_id" := js "12345678"]>
        (<["telegram_api_hash" := js "0123456789abcdef0123456789abcdef"]> ∅)))
    "/dashboard" None [].


(** A browser on the setup page after the credentials step. *)
Definition handshaking : Browser :=
  mkBrowser
    (<["telegram_api_id" := js "12345678"]>
      (<["telegram_api_hash" := js "0123456789abcdef0123456789abcdef"]> ∅))
    "/setup" None [].

(** The wizard at a given step with the form filled in. *)
Definition wizard (s : Step) (f : SetupFormData) : State :=
  mkState s f false (VStr (js "h1")).



Definition filled : SetupFormData :=
  mkFormData (js "12345678") (js "0123456789abcdef0123456789abcdef")
             (js "821012345678") (js "00000") (js "secret").

(** Backends that give the same reply to every request. *)
Definition replies (code : Z) (hdrs : gmap string jsstring) (body : jsval)
    : Config -> Reply :=
  fun _ => Http code hdrs body.

Definition authenticated_body : jsval :=
  VObj [("status", VStr (js "authenticated"));
        ("requires_2fa", VBool false);
        ("data", VObj [("status", VStr (js "authenticated"));
                       ("user_id", VNum 7)])].

Definition error_body : jsval := VObj [("detail", VStr (js "rejected"))].

Definition bearer : gmap string jsstring :=
  {["authorization" := js "Bearer abc"]}.


End Scenario.

(** ** The formats in words

    The shapes the validators are said to accept, stated on the string
    itself and without regular expressions. *)

Module Format.

Definition is_digit (c : N) : Prop :=
  (charCode "0" <= c <= charCode "9")%N.

Definition is_lower_hex (c : N) : Prop :=
  (charCode "a" <= c <= charCode "f")%N \/ is_digit c.

(** A leading [+], a first digit 1-9, 11 to 15 digits in total. *)
Definition phone_shape (s : jsstring) : Prop :=
  exists d ds,
    s = charCode "+" :: d :: ds /\
    (charCode "1" <= d <= charCode "9")%N /\
    Forall is_digit ds /\
    11 <= length (d :: ds) <= 15.

(** A non-empty string of digits. *)
Definition all_digits (s : jsstring) : Prop :=
  s <> [] /\ Forall is_digit s.

(** Exactly 32 characters, each of them 0-9 or a-f. *)
Definition lower_hex_32 (s : jsstring) : Prop :=
  length s = 32 /\ Forall is_lower_hex s.

(** The upper bound of a quantifier: [None] is unbounded. *)
Definition within (n : nat) (max : option nat) : Prop :=
  match max with
  | Some m => n <= m
  | None => True
  end.

End Format.

(** ** Further shapes in words *)

Module Shape.
Import Format.

Definition is_upper (c : N) : Prop := (charCode "A" <= c <= charCode "Z")%N.
Definition is_lower (c : N) : Prop := (charCode "a" <= c <= charCode "z")%N.

(** A letter, a digit or an underscore. *)
Definition is_word_char (c : N) : Prop :=
  is_lower c \/ is_upper c \/ is_digit c \/ c = charCode "_".

(** One of [! @ # $ % ^ & *]. *)
Definition is_special (c : N) : Prop :=
  In c (js "!@#$%^&*").

(** An [@] followed by 5 to 32 word characters. *)
Definition username_shape (s : jsstring) : Prop :=
  exists rest,
    s = charCode "@" :: rest /\
    Forall is_word_char rest /\
    5 <= length rest <= 32.

(** At least 8 code units, with an upper-case letter, a lower-case
    letter, a digit and a special character among them. *)
Definition strong_password (p : jsstring) : Prop :=
  8 <= length p /\
  Exists is_upper p /\ Exists is_lower p /\
  Exists is_digit p /\ Exists is_special p.

(** A phone number written without its [+]: a digit 1-9 and 10 to 14
    further digits. *)
Definition bare_phone_shape (s : jsstring) : Prop :=
  exists d ds,
    s = d :: ds /\
    (charCode "1" <= d <= charCode "9")%N /\
    Forall is_digit ds /\
    11 <= length (d :: ds) <= 15.

(** A string of 16-bit code units, as every JavaScript string is. *)
Definition code_units (s : jsstring) : Prop :=
  Forall (fun c => (c <= 65535)%N) s.

(** Neither white space nor [@]. *)
Definition is_plain (c : N) : Prop :=
  is_white_space c = false /\ c <> charCode "@".

(** A non-empty plain part, an [@], a non-empty plain part, a dot and a
    non-empty plain part (the parts may hold further dots). *)
Definition email_shape (s : jsstring) : Prop :=
  exists a b c,
    s = (a ++ charCode "@" :: b ++ charCode "." :: c)%list /\
    a <> [] /\ b <> [] /\ c <> [] /\
    Forall is_plain a /\ Forall is_plain b /\ Forall is_plain c.

End Shape.

(** * Properties *)

(** ** The matcher *)

Section Matcher.
Import RegExp Format.

Lemma rep_cons (cs : charclass) (k : nat -> jsstring -> bool)
    (mn : nat) (mx : option nat) (i : nat) (c : N) (s : jsstring) :
  rep cs mn mx k i (c :: s) =
  if in_class cs c && may_take mx
  then rep cs (pred mn) (taken mx) k (S i) s || ((mn =? 0)%nat && k i (c :: s))
  else (mn =? 0)%nat && k i (c :: s).
Proof. reflexivity. Qed.

Lemma rep_stop (cs : charclass) (k : nat -> jsstring -> bool)
    (mn : nat) (mx : option nat) (i : nat) (s : jsstring) :
  mn = 0 -> k i s = true -> rep cs mn mx k i s = true.
Proof.
  intros -> Hk. destruct s as [|c s].
  - simpl. exact Hk.
  - rewrite rep_cons. simpl Nat.eqb. rewrite Hk. simpl.
    rewrite orb_true_r. destruct (_ && _); reflexivity.
Qed.

Lemma rep_spec (cs : charclass) (k : nat -> jsstring -> bool) :
  forall s mn mx i,
    rep cs mn mx k i s = true <->
    exists pre post,
      s = (pre ++ post)%list /\
      forallb (in_class cs) pre = true /\
      mn <= length pre /\ within (length pre) mx /\
      k (i + length pre) post = true.
Proof.
  assert (Hstop : forall s mn mx i,
            (mn =? 0)%nat && k i s = true ->
            exists pre post, s = (pre ++ post)%list /\
              forallb (in_class cs) pre = true /\
              mn <= length pre /\ within (length pre) mx /\
              k (i + length pre) post = true).
  { intros s mn mx i. rewrite andb_true_iff, Nat.eqb_eq. intros [-> Hk].
    exists [], s. simpl. rewrite Nat.add_0_r.
    repeat split; auto. destruct mx; simpl; lia. }
  induction s as [|c s IH]; intros mn mx i.
  - split; [apply Hstop|].
    intros (pre & post & E & _ & Hmn & _ & Hk).
    symmetry in E. apply app_eq_nil in E as [-> ->].
    simpl in Hmn, Hk. rewrite Nat.add_0_r in Hk.
    apply rep_stop; [lia | exact Hk].
  - rewrite rep_cons. split.
    + destruct (in_class cs c && may_take mx) eqn:Hc; [|apply Hstop].
      rewrite orb_true_iff. intros [Hr | Hs]; [|exact (Hstop _ _ _ _ Hs)].
      apply andb_true_iff in Hc as [Hc Hm].
      apply IH in Hr as (pre & post & -> & Hall & Hmn & Hmx & Hk).
      exists (c :: pre), post. simpl. rewrite Hc, Hall.
      replace (i + S (length pre)) with (S i + length pre) by lia.
      repeat split; auto; [lia|].
      destruct mx as [[|m]|]; simpl in *; try discriminate; auto; lia.
    + intros (pre & post & E & Hall & Hmn & Hmx & Hk).
      rewrite <- rep_cons.
      destruct pre as [|c' pre].
      * simpl in E, Hmn, Hk. rewrite Nat.add_0_r in Hk. subst post.
        apply rep_stop; [lia | exact Hk].
      * simpl in E, Hall, Hmn, Hmx, Hk. injection E as <- ->.
        apply andb_true_iff in Hall as [Hc Hall].
        assert (Hm : may_take mx = true).
        { destruct mx as [[|m]|]; simpl in *; auto; lia. }
        rewrite rep_cons, Hc, Hm. simpl andb. apply orb_true_iff. left.
        apply IH. exists pre, post.
        replace (S i + length pre) with (i + S (length pre)) by lia.
        repeat split; auto; [lia|].
        destruct mx as [m|]; simpl in *; auto; lia.
Qed.

Lemma search_bol (p : pattern) :
  forall s i, search (Bol :: p) (S i) s = false.
Proof.
  induction s as [|c s IH]; intros i; simpl; [reflexivity|].
  apply IH.
Qed.

(** A pattern that starts with [^] can only match at index 0. *)
Lemma test_bol (p : pattern) (s : jsstring) :
  test (Bol :: p) s = run p 0 s.
Proof.
  unfold test. destruct s as [|c s]; simpl.
  - apply orb_false_r.
  - rewrite search_bol. apply orb_false_r.
Qed.

Lemma run_rep (cs : charclass) (mn : nat) (mx : option nat) (p : pattern)
    (i : nat) (s : jsstring) :
  run (Rep cs mn mx :: p) i s = true <->
  exists pre post,
    s = (pre ++ post)%list /\
    forallb (in_class cs) pre = true /\
    mn <= length pre /\ within (length pre) mx /\
    run p (i + length pre) post = true.
Proof. simpl. apply rep_spec. Qed.

Lemma run_eol (i : nat) (s : jsstring) :
  run [Eol] i s = true <-> s = [].
Proof. destruct s; simpl; split; congruence. Qed.

(** [^[cs]{mn,mx}$]: the whole string is in the class and its length is
    within the bounds. *)
Lemma test_whole_class (cs : charclass) (mn : nat) (mx : option nat)
    (s : jsstring) :
  test [Bol; Rep cs mn mx; Eol] s = true <->
  forallb (in_class cs) s = true /\ mn <= length s /\ within (length s) mx.
Proof.
  rewrite test_bol, run_rep. split.
  - intros (pre & post & -> & Hall & Hmn & Hmx & He).
    apply run_eol in He as ->. rewrite app_nil_r. auto.
  - intros (Hall & Hmn & Hmx). exists s, [].
    rewrite app_nil_r. repeat split; auto.
Qed.

End Matcher.

(** ** validators.ts *)

Section ValidatorFacts.
Import RegExp Format Validators.

Lemma in_class_range (lo hi : ascii) (c : N) :
  in_class [range lo hi] c = true <-> (charCode lo <= c <= charCode hi)%N.
Proof.
  unfold in_class, range. simpl.
  rewrite orb_false_r, andb_true_iff, !N.leb_le. reflexivity.
Qed.

Lemma in_class_chr (a : ascii) (c : N) :
  in_class [chr a] c = true <-> c = charCode a.
Proof.
  unfold in_class, chr. simpl.
  rewrite orb_false_r, andb_true_iff, !N.leb_le. lia.
Qed.

Lemma in_class_digit (c : N) : in_class digit c = true <-> is_digit c.
Proof. apply in_class_range. Qed.

Lemma in_class_lower_hex (c : N) :
  in_class [range "a" "f"; range "0" "9"] c = true <-> is_lower_hex c.
Proof.
  unfold in_class, is_lower_hex, is_digit, range. simpl.
  rewrite orb_false_r, orb_true_iff, !andb_true_iff, !N.leb_le. reflexivity.
Qed.

Lemma forallb_class (cs : charclass) (P : N -> Prop) (s : jsstring) :
  (forall c, in_class cs c = true <-> P c) ->
  forallb (in_class cs) s = true <-> Forall P s.
Proof.
  intros H. induction s as [|c s IH]; simpl.
  - split; auto.
  - rewrite andb_true_iff, IH, H. split.
    + intros [? ?]. constructor; assumption.
    + intros HF. inversion HF; subst. auto.
Qed.

Lemma length_one {A : Type} (l : list A) :
  1 <= length l -> length l <= 1 -> exists x, l = [x].
Proof.
  destruct l as [|x [|y l]]; simpl; intros; try lia. exists x. reflexivity.
Qed.

Example validatePhoneNumber_accepts :
  validatePhoneNumber (js "+821012345678") = true.
Proof. reflexivity. Qed.

Example validatePhoneNumber_rejects :
  validatePhoneNumber (js "821012345678") = false /\
  validatePhoneNumber (js "+021012345678") = false /\
  validatePhoneNumber (js "+8210123456") = false /\
  validatePhoneNumber (js "+8210123456789012") = false /\
  validatePhoneNumber (js "+82101234567x") = false /\
  validatePhoneNumber (js "+821012345678" ++ [10%N])%list = false /\
  validatePhoneNumber (js "+82101234567" ++ [1633%N])%list = false.
Proof. vm_compute. repeat split. Qed.

Example validateApiCredentials_samples :
  validateApiCredentials (js "12345678") (js "aaaaaaaaaaaaaaaaaaaaaaaaaaaaaaaa") = true /\
  validateApiCredentials [] (js "aaaaaaaaaaaaaaaaaaaaaaaaaaaaaaaa") = false /\
  validateApiCredentials (js "12a") (js "aaaaaaaaaaaaaaaaaaaaaaaaaaaaaaaa") = false /\
  validateApiCredentials (js "12345678") (js "AAAAAAAAAAAAAAAAAAAAAAAAAAAAAAAA") = false /\
  validateApiCredentials (js "12345678") (js "aaaaaaaaaaaaaaaaaaaaaaaaaaaaaaa") = false.
Proof. vm_compute. repeat split. Qed.

(** C5. For every string [s], [validatePhoneNumber s] is true exactly
    when [s] is a [+], then a digit 1-9, then 10 to 14 further digits
    (11 to 15 digits in total), which is what
    [^\+[1-9]\d{10,14}$] describes. *)
Theorem validatePhoneNumber_iff_shape (s : jsstring) :
  validatePhoneNumber s = true <-> phone_shape s.
Proof.
  unfold validatePhoneNumber, phoneRegex, one. rewrite test_bol. split.
  - intros H.
    apply run_rep in H as (p1 & r1 & -> & H1 & L1 & U1 & H).
    apply run_rep in H as (p2 & r2 & -> & H2 & L2 & U2 & H).
    apply run_rep in H as (p3 & r3 & -> & H3 & L3 & U3 & H).
    apply run_eol in H as ->. simpl in U1, U2, U3.
    destruct (length_one p1 L1 U1) as [x ->].
    destruct (length_one p2 L2 U2) as [d ->].
    cbn [forallb] in H1, H2. rewrite andb_true_r in H1, H2.
    apply in_class_chr in H1 as ->. apply in_class_range in H2.
    apply (forallb_class _ _ _ in_class_digit) in H3.
    exists d, p3. rewrite app_nil_r. cbn [length]. cbn [length] in L3.
    repeat split; auto; lia.
  - intros (d & ds & -> & Hd & Hds & Hlen). cbn [length] in Hlen.
    apply run_rep. exists [charCode "+"], (d :: ds).
    split; [reflexivity|]. split.
    { cbn [forallb]. rewrite andb_true_r. apply in_class_chr. reflexivity. }
    cbn [length within]. do 2 (split; [lia|]).
    apply run_rep. exists [d], ds.
    split; [reflexivity|]. split.
    { cbn [forallb]. rewrite andb_true_r. apply in_class_range. exact Hd. }
    cbn [length within]. do 2 (split; [lia|]).
    apply run_rep. exists ds, []. rewrite app_nil_r.
    split; [reflexivity|]. split.
    { apply (forallb_class _ _ _ in_class_digit). exact Hds. }
    cbn [within]. do 2 (split; [lia|]). reflexivity.
Qed.

(** C6. For every pair of strings, [validateApiCredentials apiId apiHash]
    is true exactly when [apiId] is a non-empty string of digits and
    [apiHash] consists of exactly 32 characters among 0-9 and a-f. *)
Theorem validateApiCredentials_iff_shape (apiId apiHash : jsstring) :
  validateApiCredentials apiId apiHash = true <->
  all_digits apiId /\ lower_hex_32 apiHash.
Proof.
  unfold validateApiCredentials, apiIdRegex, apiHashRegex, plus, exactly.
  rewrite andb_true_iff, !test_whole_class.
  rewrite (forallb_class _ _ _ in_class_digit).
  rewrite (forallb_class _ _ _ in_class_lower_hex).
  unfold all_digits, lower_hex_32, within. split.
  - intros [(Hd & Hl & _) (Hh & Hlo & Hhi)]. repeat split; auto; try lia.
    intros ->. simpl in Hl. lia.
  - intros [(Hne & Hd) (Hl & Hh)]. repeat split; auto; try lia.
    destruct apiId; [congruence | simpl; lia].
Qed.

End ValidatorFacts.

(** ** authService.ts: the credential store *)

Section StoreFacts.
Import Api AuthService.

Lemma getItem_removeItem_same (k : string) (b : Browser) :
  getItem k (removeItem k b) = None.
Proof. unfold getItem, removeItem. simpl. apply lookup_delete_eq. Qed.

Lemma getItem_removeItem_other (k k' : string) (b : Browser) :
  k <> k' -> getItem k' (removeItem k b) = getItem k' b.
Proof. intros H. unfold getItem, removeItem. simpl. by apply lookup_delete_ne. Qed.

Lemma getItem_removed (k k' : string) (b : Browser) :
  getItem k b = None -> getItem k (removeItem k' b) = None.
Proof.
  intros H. destruct (decide (k' = k)) as [->|Hne].
  - apply getItem_removeItem_same.
  - rewrite getItem_removeItem_other by exact Hne. exact H.
Qed.

Lemma removeItem_absent (k : string) (b : Browser) :
  getItem k b = None -> removeItem k b = b.
Proof.
  unfold getItem, removeItem. intros H. destruct b as [ls loc h net]. simpl in *.
  f_equal. by apply delete_id.
Qed.

Lemma clearAuthData_keys (b : Browser) :
  getItem "auth_token" (clearAuthData b) = None /\
  getItem "telegram_api_id" (clearAuthData b) = None /\
  getItem "telegram_api_hash" (clearAuthData b) = None /\
  getItem "user_data" (clearAuthData b) = None.
Proof.
  unfold clearAuthData. repeat split.
  - do 3 apply getItem_removed. apply getItem_removeItem_same.
  - do 2 apply getItem_removed. apply getItem_removeItem_same.
  - apply getItem_removed. apply getItem_removeItem_same.
  - apply getItem_removeItem_same.
Qed.

(** C7. After [clearAuthData] none of the session token, the stored API
    id and the stored API hash can be read back from the store, whatever
    it held before: [isAuthenticated] is false and [getApiCredentials]
    yields no id and no hash.  No store holds a token without
    credentials, or credentials without a token, after the clear. *)
Theorem clearAuthData_removes_all (b : Browser) :
  getItem "auth_token" (clearAuthData b) = None /\
  getItem "telegram_api_id" (clearAuthData b) = None /\
  getItem "telegram_api_hash" (clearAuthData b) = None /\
  isAuthenticated (clearAuthData b) = false /\
  getApiCredentials (clearAuthData b) = (None, None).
Proof.
  destruct (clearAuthData_keys b) as (Ht & Hi & Hh & _).
  repeat split; auto.
  - unfold isAuthenticated. rewrite Ht. reflexivity.
  - unfold getApiCredentials. rewrite Hi, Hh. reflexivity.
Qed.

(** C9. [clearAuthData] is idempotent: for every store, clearing twice
    in a row leaves exactly the store that one clear leaves, and that
    store holds none of the four authentication keys. *)
Theorem clearAuthData_idempotent (b : Browser) :
  clearAuthData (clearAuthData b) = clearAuthData b /\
  getItem "auth_token" (clearAuthData b) = None /\
  getItem "telegram_api_id" (clearAuthData b) = None /\
  getItem "telegram_api_hash" (clearAuthData b) = None /\
  getItem "user_data" (clearAuthData b) = None.
Proof.
  destruct (clearAuthData_keys b) as (Ht & Hi & Hh & Hu).
  repeat split; auto.
  set (c := clearAuthData b) in *. unfold clearAuthData.
  rewrite (removeItem_absent "auth_token" c Ht).
  rewrite (removeItem_absent "telegram_api_id" c Hi).
  rewrite (removeItem_absent "telegram_api_hash" c Hh).
  apply removeItem_absent. exact Hu.
Qed.

End StoreFacts.

(** ** api.ts: the three ways a request ends *)

Section GatewayFacts.
Import Api.

Lemma request_resolved (backend : Config -> Reply) (m : Method) (u : string)
    (d : jsval) (b : Browser) (code : Z) (hdrs : gmap string jsstring)
    (body : jsval) :
  reply_to backend m u d b = Http code hdrs body ->
  validateStatus code = true ->
  request backend m u d b =
    (send (onRequest b (mkConfig m u d None)) b, Ok (mkResponse code hdrs body)).
Proof.
  unfold reply_to, request. intros -> Hv. rewrite Hv. reflexivity.
Qed.

Lemma request_failed (backend : Config -> Reply) (m : Method) (u : string)
    (d : jsval) (b : Browser) :
  fails_not_401 (reply_to backend m u d b) ->
  exists e,
    request backend m u d b =
      (send (onRequest b (mkConfig m u d None)) b, Throw e).
Proof.
  unfold reply_to, request, fails_not_401.
  destruct (backend _) as [|code hdrs body].
  - intros _. eexists. reflexivity.
  - intros [Hv Hne]. rewrite Hv. unfold onRejected. simpl.
    destruct (code =? 401)%Z eqn:E; [apply Z.eqb_eq in E; contradiction|].
    eexists. reflexivity.
Qed.

Lemma request_unauthorized (backend : Config -> Reply) (m : Method)
    (u : string) (d : jsval) (b : Browser) (hdrs : gmap string jsstring)
    (body : jsval) :
  reply_to backend m u d b = Http 401 hdrs body ->
  request backend m u d b =
    (assign_href "/setup"
       (removeItem "telegram_api_hash"
         (removeItem "telegram_api_id"
           (removeItem "auth_token"
             (send (onRequest b (mkConfig m u d None)) b)))),
     Throw (AxiosError (Some (mkResponse 401 hdrs body)))).
Proof.
  unfold reply_to, request. intros ->. reflexivity.
Qed.

(** Every reply is of exactly one of the three kinds. *)
Lemma reply_cases (r : Reply) :
  resolves r \/ fails_not_401 r \/ exists hdrs body, r = Http 401 hdrs body.
Proof.
  destruct r as [|code hdrs body]; simpl; [auto|].
  destruct (validateStatus code) eqn:Hv; [auto|].
  destruct (decide (code = 401%Z)) as [->|Hne]; [|auto].
  right. right. eauto.
Qed.

Lemma unauthorized_store (b : Browser) :
  let b' := assign_href "/setup"
              (removeItem "telegram_api_hash"
                (removeItem "telegram_api_id"
                  (removeItem "auth_token" b))) in
  getItem "auth_token" b' = None /\
  getItem "telegram_api_id" b' = None /\
  getItem "telegram_api_hash" b' = None /\
  href b' = Some "/setup".
Proof.
  unfold assign_href, getItem, removeItem. simpl.
  repeat split.
  - rewrite !lookup_delete_ne by discriminate. apply lookup_delete_eq.
  - rewrite lookup_delete_ne by discriminate. apply lookup_delete_eq.
  - apply lookup_delete_eq.
Qed.

End GatewayFacts.

(** ** Session expiry *)

Section Expiry.
Import Api Setup Scenario.

(** C2. Whatever request is sent through the gateway (any method, any
    endpoint, any payload), when the backend answers it with HTTP 401 the
    interceptor assigns /setup to the location and the stored bearer
    token and both stored API credentials are gone; the page is loaded
    anew at /setup, where the wizard is back in its initial step ("api":
    credentials pending), whatever step it was in. *)
Theorem unauthorized_clears_and_restarts (backend : Config -> Reply)
    (m : Method) (u : string) (d : jsval) (st : State) (b : Browser)
    (hdrs : gmap string jsstring) (body : jsval) :
  reply_to backend m u d b = Http 401 hdrs body ->
  let r := call backend m u d st b in
  href (fst (request backend m u d b)) = Some "/setup" /\
  getItem "auth_token" (snd r) = None /\
  getItem "telegram_api_id" (snd r) = None /\
  getItem "telegram_api_hash" (snd r) = None /\
  fst r = initial /\
  step (fst r) = step_api /\
  location (snd r) = "/setup".
Proof.
  intros H. unfold call. rewrite (request_unauthorized _ _ _ _ _ _ _ H).
  cbn [fst].
  destruct (unauthorized_store (send (onRequest b (mkConfig m u d None)) b))
    as (Ht & Hi & Hh & Hhref).
  unfold load. cbn [snd fst]. rewrite Hhref. cbn [snd fst].
  repeat split; auto.
Qed.

Lemma unauthorized_clears_and_restarts_witness :
  let r := call (replies 401 ∅ error_body) GET "/channels" VUndefined
                (wizard step_code filled) signed_in in
  href (fst (request (replies 401 ∅ error_body) GET "/channels" VUndefined
                     signed_in)) = Some "/setup" /\
  getItem "auth_token" (snd r) = None /\
  getItem "telegram_api_id" (snd r) = None /\
  getItem "telegram_api_hash" (snd r) = None /\
  fst r = initial /\
  step (fst r) = step_api /\
  location (snd r) = "/setup".
Proof.
  apply (unauthorized_clears_and_restarts _ _ _ _ _ _ ∅ error_body).
  reflexivity.
Defined.

End Expiry.

(** ** authService.ts: logout and verifyCode *)

Section ServiceFacts.
Import Api AuthService Scenario.

Lemma jsstring_eqb_eq (a b : jsstring) : jsstring_eqb a b = true <-> a = b.
Proof.
  revert b. induction a as [|x a IH]; intros [|y b]; simpl;
    try (split; congruence).
  rewrite andb_true_iff, N.eqb_eq, IH. split.
  - intros [-> ->]. reflexivity.
  - intros E. injection E as -> ->. auto.
Qed.

Lemma strict_eq_str_eq (v : jsval) (lit : jsstring) :
  strict_eq_str v lit = true <-> v = VStr lit.
Proof.
  destruct v; simpl; try (split; congruence).
  rewrite jsstring_eqb_eq. split; congruence.
Qed.

(** The token is not cleared when the backend answers the logout
    request with a server error: [logout] throws before the cleanup. *)
Lemma logout_server_error_keeps_session :
  isAuthenticated signed_in = true /\
  isAuthenticated (fst (logout (replies 500 ∅ error_body) signed_in)) = true /\
  getItem "auth_token" (fst (logout (replies 500 ∅ error_body) signed_in))
    = Some (js "t0k3n").
Proof. vm_compute. repeat split. Qed.

Lemma logout_failed_keeps_store (backend : Config -> Reply) (b : Browser) :
  fails_not_401 (reply_to backend POST "/auth/logout" VUndefined b) ->
  localStorage (fst (logout backend b)) = localStorage b.
Proof.
  intros Hf. unfold logout, post.
  destruct (request_failed _ _ _ _ _ Hf) as [e ->]. reflexivity.
Qed.

(** C8 (amended). For every starting store: when the logout request is
    answered with a status axios resolves (2xx), whatever the headers and
    the body of the answer, or with 401, the stored token and the stored
    API credentials are cleared. *)
Theorem logout_clears_when_answered (backend : Config -> Reply) (b : Browser) :
  (resolves (reply_to backend POST "/auth/logout" VUndefined b) \/
   exists hdrs body,
     reply_to backend POST "/auth/logout" VUndefined b = Http 401 hdrs body) ->
  getItem "auth_token" (fst (logout backend b)) = None /\
  getItem "telegram_api_id" (fst (logout backend b)) = None /\
  getItem "telegram_api_hash" (fst (logout backend b)) = None /\
  isAuthenticated (fst (logout backend b)) = false.
Proof.
  unfold logout, post. intros [Hres | (hdrs & body & H401)].
  - destruct (reply_to backend POST "/auth/logout" VUndefined b)
      as [|code hdrs body] eqn:E; [contradiction|].
    rewrite (request_resolved _ _ _ _ _ _ _ _ E Hres). cbn [fst].
    destruct (clearAuthData_keys
                (send (onRequest b (mkConfig POST "/auth/logout" VUndefined None)) b))
      as (Ht & Hi & Hh & _).
    repeat split; auto. unfold isAuthenticated. rewrite Ht. reflexivity.
  - rewrite (request_unauthorized _ _ _ _ _ _ _ H401). cbn [fst].
    destruct (unauthorized_store
                (send (onRequest b (mkConfig POST "/auth/logout" VUndefined None)) b))
      as (Ht & Hi & Hh & _).
    repeat split; auto. unfold isAuthenticated. rewrite Ht. reflexivity.
Qed.

Lemma logout_clears_when_answered_witness :
  getItem "auth_token" (fst (logout (replies 204 ∅ VNull) signed_in)) = None /\
  getItem "telegram_api_id" (fst (logout (replies 204 ∅ VNull) signed_in)) = None /\
  getItem "telegram_api_hash" (fst (logout (replies 204 ∅ VNull) signed_in)) = None /\
  isAuthenticated (fst (logout (replies 204 ∅ VNull) signed_in)) = false.
Proof.
  apply (logout_clears_when_answered (replies 204 ∅ VNull) signed_in).
  left. reflexivity.
Defined.

(** With a token in the store, a 401 answer to the verify request makes
    [verifyCode] fail, and the token is gone although the reply is not
    an "authenticated" one. *)
Lemma verifyCode_unauthorized_changes_store :
  getItem "auth_token" signed_in = Some (js "t0k3n") /\
  getItem "auth_token"
    (fst (verifyCode (replies 401 ∅ error_body) (VObj []) signed_in)) = None /\
  localStorage (fst (verifyCode (replies 401 ∅ error_body) (VObj []) signed_in))
    <> localStorage signed_in.
Proof.
  split; [reflexivity|]. split; [reflexivity|].
  intros E. apply (f_equal (fun m => m !! "auth_token")) in E.
  vm_compute in E. discriminate.
Qed.

(** C10 (amended). [verifyCode] writes a token only when the request is
    resolved with a body whose [data.status] is "authenticated" and whose
    [data.user_id] is truthy and the response has a non-empty
    [authorization] header; the token written is the header without its
    first "Bearer ".  In every other case the store is left as it was,
    except that on a 401 answer the response interceptor removes the
    token and both API credentials before [verifyCode] fails. *)
Theorem verifyCode_store_effect (backend : Config -> Reply) (d : jsval)
    (b : Browser) :
  localStorage (fst (verifyCode backend d b)) = localStorage b \/
  (exists code hdrs body inner uid token,
     reply_to backend POST "/auth/telegram/verify" d b = Http code hdrs body /\
     validateStatus code = true /\
     prop body "data" = Some inner /\
     prop inner "status" = Some (VStr (js "authenticated")) /\
     prop inner "user_id" = Some uid /\ truthy uid = true /\
     hdrs !! "authorization" = Some token /\ token <> [] /\
     localStorage (fst (verifyCode backend d b)) =
       <["auth_token" := replace_first_with_empty (js "Bearer ") token]>
         (localStorage b)) \/
  (exists hdrs body,
     reply_to backend POST "/auth/telegram/verify" d b = Http 401 hdrs body /\
     localStorage (fst (verifyCode backend d b)) =
       delete "telegram_api_hash"
         (delete "telegram_api_id" (delete "auth_token" (localStorage b)))).
Proof.
  unfold verifyCode, post.
  destruct (reply_cases (reply_to backend POST "/auth/telegram/verify" d b))
    as [Hres | [Hf | (hdrs & body & H401)]].
  - destruct (reply_to backend POST "/auth/telegram/verify" d b)
      as [|code hdrs body] eqn:E; [contradiction|].
    simpl in Hres.
    rewrite (request_resolved _ _ _ _ _ _ _ _ E Hres). cbn [data].
    destruct (prop body "data") as [inner|] eqn:Hin; [|left; reflexivity].
    destruct (prop inner "status") as [st|] eqn:Hst; [|left; reflexivity].
    destruct (prop inner "user_id") as [uid|] eqn:Hu; [|left; reflexivity].
    destruct (strict_eq_str st (js "authenticated")) eqn:Ha;
      [|left; reflexivity].
    destruct (truthy uid) eqn:Ht; [|left; reflexivity].
    cbn [andb fst]. unfold storeToken. cbn [headers].
    destruct (hdrs !! "authorization") as [[|t token]|] eqn:Hh;
      [left; reflexivity | | left; reflexivity].
    right. left. apply strict_eq_str_eq in Ha. subst st.
    exists code, hdrs, body, inner, uid, (t :: token).
    repeat split; auto.
  - destruct (request_failed _ _ _ _ _ Hf) as [e ->]. left. reflexivity.
  - rewrite (request_unauthorized _ _ _ _ _ _ _ H401).
    right. right. exists hdrs, body. split; [exact H401|]. reflexivity.
Qed.

End ServiceFacts.

(** ** Setup.tsx: the submit handlers *)

Section WizardFacts.
Import Api AuthService Setup Validators Scenario.

Lemma prop_defined (v : jsval) (k k' : string) (x : jsval) :
  prop v k = Some x -> exists y, prop v k' = Some y.
Proof. destruct v; simpl; intros H; try discriminate; eauto. Qed.

Lemma request_network (backend : Config -> Reply) (m : Method) (u : string)
    (d : jsval) (b : Browser) :
  network (fst (request backend m u d b)) =
  onRequest b (mkConfig m u d None) :: network b.
Proof.
  unfold request. destruct (backend _) as [|code hdrs body]; [reflexivity|].
  destruct (validateStatus code); [reflexivity|].
  unfold onRejected. cbn [status]. destruct (code =? 401)%Z; reflexivity.
Qed.


Lemma load_idle (st : State) (b : Browser) : href b = None -> load (st, b) = (st, b).
Proof. unfold load. cbn [snd]. intros ->. reflexivity. Qed.

Lemma handlePhoneSubmit_browser (backend : Config -> Reply) (st : State) (b : Browser) :
  snd (handlePhoneSubmit backend st b) =
  fst (request backend POST "/auth/telegram/start" (startPayload st) b).
Proof.
  unfold handlePhoneSubmit, post.
  destruct (request backend POST "/auth/telegram/start" (startPayload st) b).
  reflexivity.
Qed.

Lemma handleCodeSubmit_browser (backend : Config -> Reply) (st : State) (b : Browser) :
  snd (handleCodeSubmit backend st b) =
  fst (request backend POST "/auth/telegram/verify" (verifyPayload st b) b).
Proof.
  unfold handleCodeSubmit, post.
  destruct (request backend POST "/auth/telegram/verify" (verifyPayload st b) b).
  reflexivity.
Qed.

Lemma handlePasswordSubmit_browser (backend : Config -> Reply) (st : State) (b : Browser) :
  snd (handlePasswordSubmit backend st b) =
  fst (request backend POST "/auth/telegram/2fa" (passwordPayload st) b).
Proof.
  unfold handlePasswordSubmit, post.
  destruct (request backend POST "/auth/telegram/2fa" (passwordPayload st) b).
  reflexivity.
Qed.




(** An empty code or password, and an empty field at any step, does not
    reach the handler. *)
Example empty_fields_are_turned_down :
  renderStep_onSubmit (replies 200 bearer authenticated_body)
    (mkState step_code (mkFormData (js "1") (js "h") (js "8210") [] []) false (VStr []))
    handshaking
  = (mkState step_code (mkFormData (js "1") (js "h") (js "8210") [] []) false (VStr []),
     handshaking) /\
  renderStep_onSubmit (replies 200 bearer authenticated_body)
    (mkState step_password (mkFormData (js "1") (js "h") (js "8210") (js "1") []) false (VStr []))
    handshaking
  = (mkState step_password (mkFormData (js "1") (js "h") (js "8210") (js "1") []) false (VStr []),
     handshaking).
Proof. split; reflexivity. Qed.

End WizardFacts.

(** ** Transitions of the wizard *)

Section Transitions.
Import Api AuthService Setup Scenario.

Lemma handleCodeSubmit_failed (backend : Config -> Reply) (st : State)
    (b : Browser) :
  fails_not_401
    (reply_to backend POST "/auth/telegram/verify" (verifyPayload st b) b) ->
  handleCodeSubmit backend st b =
    (mkState (step st) (formData st) false (phoneCodeHash st),
     send (onRequest b (mkConfig POST "/auth/telegram/verify"
                          (verifyPayload st b) None)) b).
Proof.
  intros Hf. unfold handleCodeSubmit, post.
  destruct (request_failed _ _ _ _ _ Hf) as [e ->]. reflexivity.
Qed.

Lemma handlePhoneSubmit_failed (backend : Config -> Reply) (st : State)
    (b : Browser) :
  fails_not_401
    (reply_to backend POST "/auth/telegram/start" (startPayload st) b) ->
  handlePhoneSubmit backend st b =
    (mkState (step st) (formData st) false (phoneCodeHash st),
     send (onRequest b (mkConfig POST "/auth/telegram/start"
                          (startPayload st) None)) b).
Proof.
  intros Hf. unfold handlePhoneSubmit, post.
  destruct (request_failed _ _ _ _ _ Hf) as [e ->]. reflexivity.
Qed.

Lemma handlePasswordSubmit_failed (backend : Config -> Reply) (st : State)
    (b : Browser) :
  fails_not_401
    (reply_to backend POST "/auth/telegram/2fa" (passwordPayload st) b) ->
  handlePasswordSubmit backend st b =
    (mkState (step st) (formData st) false (phoneCodeHash st),
     send (onRequest b (mkConfig POST "/auth/telegram/2fa"
                          (passwordPayload st) None)) b).
Proof.
  intros Hf. unfold handlePasswordSubmit, post.
  destruct (request_failed _ _ _ _ _ Hf) as [e ->]. reflexivity.
Qed.

Lemma verifyCode_failed (backend : Config -> Reply) (d : jsval) (b : Browser) :
  fails_not_401 (reply_to backend POST "/auth/telegram/verify" d b) ->
  exists e,
    verifyCode backend d b =
      (send (onRequest b (mkConfig POST "/auth/telegram/verify" d None)) b,
       Throw e).
Proof.
  intros Hf. unfold verifyCode, post.
  destruct (request_failed _ _ _ _ _ Hf) as [e ->]. eauto.
Qed.

(** The start request answered with "code_sent" and a handshake id. *)
Example phone_step_code_sent :
  let r := submit (handlePhoneSubmit
                     (replies 200 ∅ (VObj [("status", VStr (js "code_sent"));
                                           ("phone_code_hash", VStr (js "h1"))])))
                  (mkState step_phone filled false (VStr [])) handshaking in
  step (fst r) = step_code /\ phoneCodeHash (fst r) = VStr (js "h1").
Proof. vm_compute. split; reflexivity. Qed.

(** The verify request answered with "authenticated", a user id and a
    bearer header: the wizard completes; the service stores the token. *)
Example code_step_authenticated :
  step (fst (submit (handleCodeSubmit (replies 200 bearer authenticated_body))
                    (wizard step_code filled) handshaking)) = step_complete /\
  getItem "auth_token"
    (fst (verifyCode (replies 200 bearer authenticated_body) (VObj []) handshaking))
    = Some (js "abc").
Proof. vm_compute. split; reflexivity. Qed.

(** From the code step, a 401 answer to the verify request does not
    leave the wizard in the code step: the page is loaded anew and the
    wizard is back in its first step. *)
Lemma code_step_lost_on_unauthorized :
  validateStatus 401 = false /\
  step (wizard step_code filled) = step_code /\
  step (fst (submit (handleCodeSubmit (replies 401 ∅ error_body))
                    (wizard step_code filled) handshaking)) = step_api /\
  step (fst (submit (handleCodeSubmit (replies 401 ∅ error_body))
                    (wizard step_code filled) handshaking)) <> step_code.
Proof. vm_compute. repeat split. discriminate. Qed.

(** C4 (amended). When a handshake request fails other than by a 401 (no
    reply, or any status outside 2xx except 401, so every other 4xx), the
    wizard does not move: each of the three network steps leaves the
    step as it was, so after a rejected code submission a wizard in the
    code step is still in the code step; neither the handler nor
    [verifyCode] touches the store, so no token is created. *)
Theorem failed_request_keeps_step (backend : Config -> Reply)
    (st : State) (b : Browser) (d : jsval) :
  (forall c, fails_not_401 (backend c)) ->
  href b = None ->
  step (fst (submit (handlePhoneSubmit backend) st b)) = step st /\
  step (fst (submit (handleCodeSubmit backend) st b)) = step st /\
  step (fst (submit (handlePasswordSubmit backend) st b)) = step st /\
  localStorage (snd (submit (handleCodeSubmit backend) st b)) = localStorage b /\
  getItem "auth_token" (snd (submit (handleCodeSubmit backend) st b))
    = getItem "auth_token" b /\
  localStorage (fst (verifyCode backend d b)) = localStorage b /\
  getItem "auth_token" (fst (verifyCode backend d b)) = getItem "auth_token" b.
Proof.
  intros Hfail Hidle. unfold submit.
  rewrite handlePhoneSubmit_failed by apply Hfail.
  rewrite handleCodeSubmit_failed by apply Hfail.
  rewrite handlePasswordSubmit_failed by apply Hfail.
  rewrite !load_idle by exact Hidle. cbn [fst snd].
  destruct (verifyCode_failed backend d b (Hfail _)) as [e ->].
  cbn [fst]. repeat split; auto.
Qed.

Lemma failed_request_keeps_step_witness :
  step (fst (submit (handlePhoneSubmit (replies 400 ∅ error_body))
                    (wizard step_code filled) handshaking)) = step_code /\
  step (fst (submit (handleCodeSubmit (replies 400 ∅ error_body))
                    (wizard step_code filled) handshaking)) = step_code /\
  step (fst (submit (handlePasswordSubmit (replies 400 ∅ error_body))
                    (wizard step_code filled) handshaking)) = step_code /\
  localStorage (snd (submit (handleCodeSubmit (replies 400 ∅ error_body))
                            (wizard step_code filled) handshaking))
    = localStorage handshaking /\
  getItem "auth_token" (snd (submit (handleCodeSubmit (replies 400 ∅ error_body))
                                    (wizard step_code filled) handshaking))
    = getItem "auth_token" handshaking /\
  localStorage (fst (verifyCode (replies 400 ∅ error_body) (VObj []) handshaking))
    = localStorage handshaking /\
  getItem "auth_token" (fst (verifyCode (replies 400 ∅ error_body) (VObj []) handshaking))
    = getItem "auth_token" handshaking.
Proof.
  apply (failed_request_keeps_step (replies 400 ∅ error_body)
           (wizard step_code filled) handshaking (VObj [])).
  - intros c. simpl. split; [reflexivity | discriminate].
  - reflexivity.
Defined.

(** From the phone step an "authenticated" reply to the start request
    leaves the wizard in the phone step. *)
Lemma phone_step_ignores_authenticated :
  prop authenticated_body "status" = Some (VStr (js "authenticated")) /\
  step (wizard step_phone filled) = step_phone /\
  step (fst (submit (handlePhoneSubmit (replies 200 ∅ authenticated_body))
                    (wizard step_phone filled) handshaking)) = step_phone /\
  step (fst (submit (handlePhoneSubmit (replies 200 ∅ authenticated_body))
                    (wizard step_phone filled) handshaking)) <> step_complete.
Proof. vm_compute. repeat split. discriminate. Qed.

(** C3 (amended). When the backend resolves the request with a body
    whose status is "authenticated": from the code step the wizard goes
    directly to the last step ("complete": authenticated), without a
    password step; from the phone step it does not, it goes to the
    password step when requires_2fa is truthy and stays where it is
    otherwise. *)
Theorem authenticated_reply_by_step (backend : Config -> Reply) (st : State)
    (b : Browser) (code : Z) (hdrs : gmap string jsstring)
    (body requires_2fa : jsval) :
  (forall c, backend c = Http code hdrs body) ->
  validateStatus code = true ->
  prop body "status" = Some (VStr (js "authenticated")) ->
  prop body "requires_2fa" = Some requires_2fa ->
  href b = None ->
  step (fst (submit (handleCodeSubmit backend) st b)) = step_complete /\
  step (fst (submit (handlePhoneSubmit backend) st b)) =
    (if truthy requires_2fa then step_password else step st).
Proof.
  intros Hreply Hv Hs Hr Hidle. unfold submit. split.
  - unfold handleCodeSubmit, post.
    rewrite (request_resolved backend POST _ _ b code hdrs body (Hreply _) Hv).
    cbn [data]. rewrite Hs, Hr. rewrite load_idle by exact Hidle.
    reflexivity.
  - unfold handlePhoneSubmit, post.
    rewrite (request_resolved backend POST _ _ b code hdrs body (Hreply _) Hv).
    cbn [data]. rewrite Hs, Hr.
    destruct (prop_defined _ _ "phone_code_hash" _ Hs) as [h ->].
    rewrite load_idle by exact Hidle.
    change (strict_eq_str (VStr (js "authenticated")) (js "code_sent")) with false.
    cbv iota. destruct (truthy requires_2fa); reflexivity.
Qed.

Lemma authenticated_reply_by_step_witness :
  step (fst (submit (handleCodeSubmit (replies 200 bearer authenticated_body))
                    (wizard step_code filled) handshaking)) = step_complete /\
  step (fst (submit (handlePhoneSubmit (replies 200 bearer authenticated_body))
                    (wizard step_code filled) handshaking)) =
    (if truthy (VBool false) then step_password
     else step (wizard step_code filled)).
Proof.
  apply (authenticated_reply_by_step (replies 200 bearer authenticated_body)
           (wizard step_code filled) handshaking 200 bearer authenticated_body
           (VBool false)).
  - intros c. reflexivity.
  - reflexivity.
  - reflexivity.
  - reflexivity.
  - reflexivity.
Defined.

End Transitions.

(** ** validators.ts: the other validators *)

Section MoreValidatorFacts.
Import RegExp Format Shape Validators.

Lemma in_class_word (c : N) :
  in_class [range "a" "z"; range "A" "Z"; range "0" "9"; chr "_"] c = true <->
  is_word_char c.
Proof.
  unfold in_class, is_word_char, is_lower, is_upper, is_digit, range, chr.
  cbn [existsb fst snd].
  rewrite orb_false_r, !orb_true_iff, !andb_true_iff, !N.leb_le.
  split.
  - intros [H | [H | [H | H]]]; auto. right. right. right. lia.
  - intros [H | [H | [H | H]]]; auto. right. right. right. lia.
Qed.

(** X1. [validateChannelUsername] accepts exactly an [@] followed by 5
    to 32 letters, digits or underscores. *)
Theorem validateChannelUsername_iff_shape (s : jsstring) :
  validateChannelUsername s = true <-> username_shape s.
Proof.
  unfold validateChannelUsername, usernameRegex, one. rewrite test_bol. split.
  - intros H.
    apply run_rep in H as (p1 & r1 & -> & H1 & L1 & U1 & H).
    apply run_rep in H as (p2 & r2 & -> & H2 & L2 & U2 & H).
    apply run_eol in H as ->. cbn [within] in U1, U2.
    destruct (length_one p1 L1 U1) as [x ->].
    cbn [forallb] in H1. rewrite andb_true_r in H1.
    apply in_class_chr in H1 as ->.
    apply (forallb_class _ _ _ in_class_word) in H2.
    exists p2. rewrite app_nil_r. repeat split; auto.
  - intros (rest & -> & Hw & Hlo & Hhi).
    apply run_rep. exists [charCode "@"], rest.
    split; [reflexivity|]. split.
    { cbn [forallb]. rewrite andb_true_r. apply in_class_chr. reflexivity. }
    cbn [length within]. do 2 (split; [lia|]).
    apply run_rep. exists rest, []. rewrite app_nil_r.
    split; [reflexivity|]. split.
    { apply (forallb_class _ _ _ in_class_word). exact Hw. }
    cbn [within]. do 2 (split; [lia|]). reflexivity.
Qed.

(** What [validatePhoneNumber] demands of the first two code units. *)
Lemma validatePhoneNumber_head (s : jsstring) :
  validatePhoneNumber s = true ->
  exists d ds, s = charCode "+" :: d :: ds /\ (charCode "1" <= d <= charCode "9")%N.
Proof.
  unfold validatePhoneNumber, phoneRegex, one. rewrite test_bol. intros H.
  apply run_rep in H as (p1 & r1 & -> & H1 & L1 & U1 & H).
  apply run_rep in H as (p2 & r2 & -> & H2 & L2 & U2 & H).
  cbn [within] in U1, U2.
  destruct (length_one p1 L1 U1) as [x ->].
  destruct (length_one p2 L2 U2) as [d ->].
  cbn [forallb] in H1, H2. rewrite andb_true_r in H1, H2.
  apply in_class_chr in H1 as ->. apply in_class_range in H2.
  exists d, r2. split; [reflexivity | exact H2].
Qed.

Lemma startsWith_cons (a : ascii) (c : N) (r : jsstring) :
  startsWith [charCode a] (c :: r) = (charCode a =? c)%N.
Proof.
  unfold startsWith. cbn [strip_prefix].
  destruct (charCode a =? c)%N; reflexivity.
Qed.

Lemma startsWith_plus (s : jsstring) :
  startsWith (js "+") s = true <-> exists r, s = charCode "+" :: r.
Proof.
  change (js "+") with [charCode "+"]. destruct s as [|c r].
  - split; [discriminate | intros [r H]; discriminate].
  - rewrite startsWith_cons, N.eqb_eq. split.
    + intros <-. eauto.
    + intros [r' H]. injection H as -> _. reflexivity.
Qed.

Lemma validatePhoneNumber_double_plus (r : jsstring) :
  validatePhoneNumber (charCode "+" :: charCode "+" :: r) = false.
Proof.
  destruct (validatePhoneNumber _) eqn:E; [|reflexivity].
  apply validatePhoneNumber_head in E as (d & ds & H & Hd).
  injection H as <- _. vm_compute in Hd. destruct Hd as [Hd _].
  exfalso. apply Hd. reflexivity.
Qed.

Lemma validatePhoneNumber_no_plus (s : jsstring) :
  startsWith (js "+") s = false -> validatePhoneNumber s = false.
Proof.
  intros Hs. destruct (validatePhoneNumber s) eqn:E; [|reflexivity].
  apply validatePhoneNumber_head in E as (d & ds & -> & _).
  discriminate Hs.
Qed.

(** X2. [formatPhoneNumber] is idempotent, its result always starts
    with [+], and it adds at most that one code unit. *)
Theorem formatPhoneNumber_idempotent (s : jsstring) :
  formatPhoneNumber (formatPhoneNumber s) = formatPhoneNumber s /\
  startsWith (js "+") (formatPhoneNumber s) = true /\
  length s <= length (formatPhoneNumber s) <= S (length s).
Proof.
  assert (Hp : startsWith (js "+") (formatPhoneNumber s) = true).
  { unfold formatPhoneNumber. destruct (startsWith (js "+") s) eqn:E.
    - exact E.
    - apply startsWith_plus. eexists. reflexivity. }
  split; [|split; [exact Hp|]].
  - unfold formatPhoneNumber at 1. rewrite Hp. reflexivity.
  - unfold formatPhoneNumber. destruct (startsWith (js "+") s); simpl; lia.
Qed.

(** X3. Formatting and then validating accepts exactly the numbers
    that are valid as they stand and the numbers that become valid when
    a [+] is put in front. *)
Theorem validatePhoneNumber_formatPhoneNumber (s : jsstring) :
  validatePhoneNumber (formatPhoneNumber s) =
  validatePhoneNumber s || validatePhoneNumber (js "+" ++ s)%list.
Proof.
  unfold formatPhoneNumber. destruct (startsWith (js "+") s) eqn:E; cbn [negb].
  - apply startsWith_plus in E as [r ->].
    change (js "+" ++ charCode "+" :: r)%list
      with (charCode "+" :: charCode "+" :: r).
    rewrite validatePhoneNumber_double_plus. symmetry. apply orb_false_r.
  - rewrite (validatePhoneNumber_no_plus s E). reflexivity.
Qed.

End MoreValidatorFacts.

(** ** validators.ts: keywords, passwords, error messages *)

Section TextFacts.
Import RegExp Format Shape Validators.
Local Open Scope list_scope.

Lemma trimStart_blank (w : jsstring) :
  forallb is_white_space w = true -> trimStart w = [].
Proof.
  induction w as [|c w IH]; [reflexivity|].
  cbn [forallb trimStart]. intros H. apply andb_true_iff in H as [Hc Hw].
  rewrite Hc. apply IH. exact Hw.
Qed.

Lemma trimStart_nil_blank (s : jsstring) :
  trimStart s = [] -> forallb is_white_space s = true.
Proof.
  induction s as [|c s IH]; [reflexivity|].
  cbn [forallb trimStart]. destruct (is_white_space c); [|discriminate].
  intros H. apply IH. exact H.
Qed.

Lemma trimStart_app_blank (w x : jsstring) :
  forallb is_white_space w = true -> trimStart (w ++ x) = trimStart x.
Proof.
  induction w as [|c w IH]; [reflexivity|].
  cbn [forallb app trimStart]. intros H. apply andb_true_iff in H as [Hc Hw].
  rewrite Hc. apply IH. exact Hw.
Qed.

Lemma trimStart_app_r (x w : jsstring) :
  trimStart x <> [] -> trimStart (x ++ w) = (trimStart x ++ w)%list.
Proof.
  induction x as [|c x IH]; [intros H; contradiction|].
  cbn [app trimStart]. destruct (is_white_space c); [exact IH | reflexivity].
Qed.

Lemma forallb_rev {A : Type} (f : A -> bool) (l : list A) :
  forallb f (rev l) = forallb f l.
Proof.
  induction l as [|x l IH]; [reflexivity|].
  cbn [rev forallb]. rewrite forallb_app, IH. cbn [forallb].
  rewrite andb_true_r. apply andb_comm.
Qed.

Lemma trimEnd_app_blank (x w : jsstring) :
  forallb is_white_space w = true -> trimEnd (x ++ w) = trimEnd x.
Proof.
  intros H. unfold trimEnd. rewrite rev_app_distr.
  rewrite trimStart_app_blank by (rewrite forallb_rev; exact H).
  reflexivity.
Qed.

Lemma trim_surrounded (w1 s w2 : jsstring) :
  forallb is_white_space w1 = true ->
  forallb is_white_space w2 = true ->
  trim (w1 ++ s ++ w2) = trim s.
Proof.
  intros H1 H2. unfold trim. rewrite (trimStart_app_blank w1 _ H1).
  destruct (trimStart s) as [|c r] eqn:E.
  - rewrite trimStart_blank; [reflexivity|].
    rewrite forallb_app, H2, andb_true_r.
    apply trimStart_nil_blank. exact E.
  - rewrite trimStart_app_r by (rewrite E; discriminate).
    rewrite E. apply trimEnd_app_blank. exact H2.
Qed.

Lemma trim_blank (s : jsstring) :
  forallb is_white_space s = true -> trim s = [].
Proof. intros H. unfold trim. rewrite trimStart_blank by exact H. reflexivity. Qed.

(** X4. White space around a keyword does not count: for strings [w1]
    and [w2] of white space only, [validateKeyword] gives the same
    answer on [w1 ++ s ++ w2] as on [s]. *)
Theorem validateKeyword_surrounding_space (w1 s w2 : jsstring) :
  forallb is_white_space w1 = true ->
  forallb is_white_space w2 = true ->
  validateKeyword (w1 ++ s ++ w2) = validateKeyword s.
Proof.
  intros H1 H2. unfold validateKeyword.
  rewrite (trim_surrounded w1 s w2 H1 H2). reflexivity.
Qed.

Lemma validateKeyword_surrounding_space_witness :
  validateKeyword (js "  " ++ js "breaking news" ++ [9%N; 10%N; 160%N])
  = validateKeyword (js "breaking news").
Proof.
  apply (validateKeyword_surrounding_space (js "  ") (js "breaking news")
           [9%N; 10%N; 160%N]); reflexivity.
Defined.

(** X5. A keyword of white space only, the empty keyword included, is
    rejected. *)
Theorem validateKeyword_blank (s : jsstring) :
  forallb is_white_space s = true -> validateKeyword s = false.
Proof.
  intros H. unfold validateKeyword. rewrite (trim_blank s H). reflexivity.
Qed.

Lemma validateKeyword_blank_witness :
  validateKeyword [32%N; 9%N; 12288%N] = false.
Proof. apply (validateKeyword_blank [32%N; 9%N; 12288%N]). reflexivity. Defined.

(** An unanchored single class: the test finds some code unit of it. *)
Lemma rep_zero (cs : charclass) (i : nat) (s : jsstring) :
  rep cs 0 (Some 0) (run []) i s = true.
Proof.
  destruct s as [|c s]; [reflexivity|].
  rewrite rep_cons. cbn [may_take]. rewrite andb_false_r. reflexivity.
Qed.

Lemma search_one (cs : charclass) :
  forall s i, search [one cs] i s = existsb (in_class cs) s.
Proof.
  induction s as [|c s IH]; intros i; [reflexivity|].
  cbn [search existsb]. rewrite IH. f_equal.
  unfold one. cbn [run]. rewrite rep_cons. cbn [may_take pred taken Nat.eqb].
  rewrite andb_true_r. destruct (in_class cs c); [|reflexivity].
  rewrite rep_zero. reflexivity.
Qed.

Lemma test_one (cs : charclass) (P : N -> Prop) (s : jsstring) :
  (forall c, in_class cs c = true <-> P c) ->
  test [one cs] s = true <-> Exists P s.
Proof.
  intros H. unfold test. rewrite search_one, existsb_exists, List.Exists_exists.
  split; intros (c & Hin & Hc); exists c; (split; [exact Hin | apply H, Hc]).
Qed.

Lemma in_class_special (c : N) :
  in_class [chr "!"; chr "@"; chr "#"; chr "$"; chr "%"; chr "^"; chr "&"; chr "*"] c
    = true <-> is_special c.
Proof.
  unfold in_class, is_special, chr. cbn [existsb fst snd js In].
  rewrite orb_false_r, !orb_true_iff, !andb_true_iff, !N.leb_le.
  split.
  - intros H. repeat (destruct H as [H | H]; [left; lia | right]). left. lia.
  - intros H.
    repeat (destruct H as [H | H]; [left; subst c; split; apply N.le_refl | right]).
    destruct H as [H | []]. subst c. split; apply N.le_refl.
Qed.

Lemma push_if_nil (cond : bool) (msg : string) (errors : list jsstring) :
  push_if cond msg errors = [] <-> cond = false /\ errors = [].
Proof.
  unfold push_if. destruct cond.
  - split; [|intros [H _]; discriminate].
    intros H. apply app_eq_nil in H as [_ H]. discriminate.
  - split; [auto | intros [_ H]; exact H].
Qed.

(** X6. [validatePasswordStrength] reports a password as valid exactly
    when it has at least 8 code units and contains an upper-case letter,
    a lower-case letter, a digit and one of [!@#$%^&*]; it reports at
    most five errors. *)
Theorem validatePasswordStrength_valid_iff (p : jsstring) :
  (isValid (validatePasswordStrength p) = true <-> strong_password p) /\
  length (errors (validatePasswordStrength p)) <= 5.
Proof.
  unfold validatePasswordStrength. cbn [isValid errors]. split.
  - rewrite Nat.eqb_eq, length_zero_iff_nil, !push_if_nil.
    unfold strong_password, upperRegex, lowerRegex, digitRegex, specialRegex.
    rewrite !negb_false_iff, Nat.ltb_ge.
    rewrite (test_one _ is_upper p (in_class_range "A" "Z")).
    rewrite (test_one _ is_lower p (in_class_range "a" "z")).
    rewrite (test_one _ is_digit p in_class_digit).
    rewrite (test_one _ is_special p in_class_special).
    split.
    + intros (Hs & Hd & Hl & Hu & Hlen & _). auto.
    + intros (Hlen & Hu & Hl & Hd & Hs). auto 10.
  - unfold push_if.
    repeat match goal with
           | |- context [if ?c then _ else _] => destruct c
           end; rewrite ?length_app; simpl; lia.
Qed.

Lemma join_nil (sep : jsstring) (parts : list jsstring) :
  sep <> [] -> Forall (fun x => x <> []) parts ->
  join sep parts = [] -> parts = [].
Proof.
  intros Hsep Hparts. destruct parts as [|x rest]; [reflexivity|].
  inversion Hparts as [|? ? Hx _]; subst. cbn [join].
  destruct rest; intros H.
  - contradiction.
  - apply app_eq_nil in H as [H _]. contradiction.
Qed.

(** X7. [formatValidationError] returns the empty message exactly when
    the error carries an empty [errors] array; the [detail] of such an
    error is not used. *)
Theorem formatValidationError_empty_iff (error : ApiError.t) :
  formatValidationError error = [] <->
  exists r, ApiError.response error = Some r /\
            ApiError.errors (ApiError.data r) = Some [].
Proof.
  unfold formatValidationError.
  destruct (ApiError.response error) as [r|].
  - destruct (ApiError.errors (ApiError.data r)) as [errs|] eqn:E.
    + split.
      * intros H. exists r. split; [reflexivity|]. rewrite E. f_equal.
        apply join_nil in H; [|discriminate|].
        -- destruct errs; [reflexivity | discriminate].
        -- apply List.Forall_forall. intros x Hx.
           apply in_map_iff in Hx as (err & <- & _).
           intros Hnil. apply app_eq_nil in Hnil as [_ Hnil]. discriminate.
      * intros (r' & Hr & He). injection Hr as <-.
        rewrite E in He. injection He as ->. reflexivity.
    + split.
      * destruct (ApiError.detail (ApiError.data r)); discriminate.
      * intros (r' & Hr & He). injection Hr as <-. congruence.
  - split; [discriminate | intros (r & Hr & _); discriminate].
Qed.

End TextFacts.

(** ** Dashboard.tsx *)

Section DashboardFacts.
Import Dashboard.
Local Open Scope list_scope.


End DashboardFacts.

(** ** api.ts and authService.ts: what a request does to the browser *)

Section GatewayEffects.
Import Api AuthService Scenario.
Local Open Scope list_scope.

(** X9. A request that is not answered with a 401 changes nothing in
    the browser but the request log: the store, the location and the
    pending navigation are as before, whether the request succeeded,
    failed with another status or got no reply. *)
Theorem request_only_logs_unless_unauthorized (backend : Config -> Reply)
    (m : Method) (u : string) (d : jsval) (b : Browser) :
  (forall hdrs body, reply_to backend m u d b <> Http 401 hdrs body) ->
  localStorage (fst (request backend m u d b)) = localStorage b /\
  location (fst (request backend m u d b)) = location b /\
  href (fst (request backend m u d b)) = href b /\
  network (fst (request backend m u d b)) =
    onRequest b (mkConfig m u d None) :: network b.
Proof.
  intros Hn.
  destruct (reply_cases (reply_to backend m u d b))
    as [Hres | [Hf | (hdrs & body & H401)]].
  - destruct (reply_to backend m u d b) as [|code hdrs body] eqn:E;
      [contradiction|].
    rewrite (request_resolved _ _ _ _ _ _ _ _ E Hres). auto.
  - destruct (request_failed _ _ _ _ _ Hf) as [e ->]. auto.
  - exfalso. exact (Hn _ _ H401).
Qed.

Lemma request_only_logs_unless_unauthorized_witness :
  localStorage (fst (request (replies 500 ∅ error_body) GET "/channels"
                             VUndefined signed_in)) = localStorage signed_in /\
  location (fst (request (replies 500 ∅ error_body) GET "/channels"
                         VUndefined signed_in)) = location signed_in /\
  href (fst (request (replies 500 ∅ error_body) GET "/channels"
                     VUndefined signed_in)) = href signed_in /\
  network (fst (request (replies 500 ∅ error_body) GET "/channels"
                        VUndefined signed_in)) =
    onRequest signed_in (mkConfig GET "/channels" VUndefined None)
      :: network signed_in.
Proof.
  apply (request_only_logs_unless_unauthorized (replies 500 ∅ error_body)
           GET "/channels" VUndefined signed_in).
  intros hdrs body. discriminate.
Defined.

(** X10. The 401 reset removes three keys and nothing else: every other
    key of the store, [user_data] among them, keeps its value. *)
Theorem unauthorized_keeps_other_keys (backend : Config -> Reply)
    (m : Method) (u : string) (d : jsval) (b : Browser)
    (hdrs : gmap string jsstring) (body : jsval) (k : string) :
  reply_to backend m u d b = Http 401 hdrs body ->
  k <> "auth_token" -> k <> "telegram_api_id" -> k <> "telegram_api_hash" ->
  getItem k (fst (request backend m u d b)) = getItem k b.
Proof.
  intros H Ht Hi Hh. rewrite (request_unauthorized _ _ _ _ _ _ _ H).
  cbn [fst]. unfold getItem, assign_href, removeItem, send. cbn [localStorage].
  rewrite !lookup_delete_ne by congruence. reflexivity.
Qed.

Lemma unauthorized_keeps_other_keys_witness :
  getItem "user_data"
    (fst (request (replies 401 ∅ error_body) GET "/channels" VUndefined
                  (setItem "user_data" (js "{}") signed_in)))
  = getItem "user_data" (setItem "user_data" (js "{}") signed_in).
Proof.
  apply (unauthorized_keeps_other_keys (replies 401 ∅ error_body) GET
           "/channels" VUndefined (setItem "user_data" (js "{}") signed_in)
           ∅ error_body "user_data"); [reflexivity | discriminate ..].
Defined.


Lemma strip_prefix_app (p t : jsstring) : strip_prefix p (p ++ t) = Some t.
Proof.
  induction p as [|x p IH]; [destruct t; reflexivity|].
  cbn [app strip_prefix]. rewrite N.eqb_refl. exact IH.
Qed.

Lemma replace_first_prefix (p t : jsstring) :
  replace_first_with_empty p (p ++ t) = t.
Proof.
  destruct (p ++ t) as [|c r] eqn:E.
  - apply app_eq_nil in E as [-> ->]. reflexivity.
  - cbn [replace_first_with_empty]. rewrite <- E, strip_prefix_app. reflexivity.
Qed.

(** X12. [verify2FA] writes a token only when the request is resolved
    with a body whose [data.status] is "authenticated" and the response
    has a non-empty [authorization] header; no [user_id] is asked for.
    Otherwise the store is as it was, except after a 401, where the
    three session keys are removed. *)
Theorem verify2FA_store_effect (backend : Config -> Reply) (d : jsval)
    (b : Browser) :
  localStorage (fst (verify2FA backend d b)) = localStorage b \/
  (exists code hdrs body inner token,
     reply_to backend POST "/auth/telegram/2fa" d b = Http code hdrs body /\
     validateStatus code = true /\
     prop body "data" = Some inner /\
     prop inner "status" = Some (VStr (js "authenticated")) /\
     hdrs !! "authorization" = Some token /\ token <> [] /\
     localStorage (fst (verify2FA backend d b)) =
       <["auth_token" := replace_first_with_empty (js "Bearer ") token]>
         (localStorage b)) \/
  (exists hdrs body,
     reply_to backend POST "/auth/telegram/2fa" d b = Http 401 hdrs body /\
     localStorage (fst (verify2FA backend d b)) =
       delete "telegram_api_hash"
         (delete "telegram_api_id" (delete "auth_token" (localStorage b)))).
Proof.
  unfold verify2FA, post.
  destruct (reply_cases (reply_to backend POST "/auth/telegram/2fa" d b))
    as [Hres | [Hf | (hdrs & body & H401)]].
  - destruct (reply_to backend POST "/auth/telegram/2fa" d b)
      as [|code hdrs body] eqn:E; [contradiction|].
    simpl in Hres.
    rewrite (request_resolved _ _ _ _ _ _ _ _ E Hres). cbn [data].
    destruct (prop body "data") as [inner|] eqn:Hin; [|left; reflexivity].
    destruct (prop inner "status") as [st|] eqn:Hst; [|left; reflexivity].
    destruct (strict_eq_str st (js "authenticated")) eqn:Ha;
      [|left; reflexivity].
    cbn [fst]. unfold storeToken. cbn [headers].
    destruct (hdrs !! "authorization") as [[|t token]|] eqn:Hh;
      [left; reflexivity | | left; reflexivity].
    right. left. apply strict_eq_str_eq in Ha. subst st.
    exists code, hdrs, body, inner, (t :: token).
    repeat split; auto.
  - destruct (request_failed _ _ _ _ _ Hf) as [e ->]. left. reflexivity.
  - rewrite (request_unauthorized _ _ _ _ _ _ _ H401).
    right. right. exists hdrs, body. split; [exact H401|]. reflexivity.
Qed.

(** X13. The token makes the round trip: when [verify2FA] is answered
    "authenticated" with the header [Bearer t], [t] not empty, the store
    holds [t], the browser counts as authenticated, and every later
    request carries [Bearer t] again. *)
Theorem verify2FA_token_roundtrip (backend : Config -> Reply) (d : jsval)
    (b : Browser) (code : Z) (hdrs : gmap string jsstring)
    (body inner : jsval) (t : jsstring) (config : Config) :
  reply_to backend POST "/auth/telegram/2fa" d b = Http code hdrs body ->
  validateStatus code = true ->
  prop body "data" = Some inner ->
  prop inner "status" = Some (VStr (js "authenticated")) ->
  hdrs !! "authorization" = Some (js "Bearer " ++ t) ->
  t <> [] ->
  getItem "auth_token" (fst (verify2FA backend d b)) = Some t /\
  isAuthenticated (fst (verify2FA backend d b)) = true /\
  Authorization (onRequest (fst (verify2FA backend d b)) config)
    = Some (js "Bearer " ++ t).
Proof.
  intros E Hv Hin Hst Hh Ht. unfold verify2FA, post.
  rewrite (request_resolved _ _ _ _ _ _ _ _ E Hv). cbn [data].
  rewrite Hin, Hst.
  change (strict_eq_str (VStr (js "authenticated")) (js "authenticated"))
    with true.
  cbn iota. cbn [fst]. unfold storeToken. cbn [headers]. rewrite Hh.
  change (js "Bearer " ++ t) with (charCode "B" :: (js "earer " ++ t)).
  cbv iota.
  change (charCode "B" :: (js "earer " ++ t)) with (js "Bearer " ++ t).
  rewrite replace_first_prefix.
  set (b' := setItem "auth_token" t _).
  assert (Hg : getItem "auth_token" b' = Some t).
  { subst b'. unfold getItem, setItem. cbn [localStorage].
    apply lookup_insert_eq. }
  split; [exact Hg|]. unfold isAuthenticated, onRequest. rewrite Hg.
  destruct t; [contradiction | split; reflexivity].
Qed.

Lemma verify2FA_token_roundtrip_witness :
  getItem "auth_token"
    (fst (verify2FA (replies 200 bearer authenticated_body) (VObj []) handshaking))
    = Some (js "abc") /\
  isAuthenticated
    (fst (verify2FA (replies 200 bearer authenticated_body) (VObj []) handshaking))
    = true /\
  Authorization
    (onRequest
       (fst (verify2FA (replies 200 bearer authenticated_body) (VObj []) handshaking))
       (mkConfig GET "/channels" VUndefined None))
    = Some (js "Bearer " ++ js "abc").
Proof.
  apply (verify2FA_token_roundtrip (replies 200 bearer authenticated_body)
           (VObj []) handshaking 200 bearer authenticated_body
           (VObj [("status", VStr (js "authenticated")); ("user_id", VNum 7)])
           (js "abc") (mkConfig GET "/channels" VUndefined None));
    try reflexivity.
  discriminate.
Defined.

End GatewayEffects.

(** ** Setup.tsx: the wizard as a whole *)

Section WizardRuns.
Import Api AuthService Setup Validators Format Shape RegExp Scenario.
Local Open Scope list_scope.

Lemma request_browser_cases (backend : Config -> Reply) (m : Method)
    (u : string) (d : jsval) (b : Browser) :
  fst (request backend m u d b) = send (onRequest b (mkConfig m u d None)) b \/
  fst (request backend m u d b) =
    assign_href "/setup"
      (removeItem "telegram_api_hash"
        (removeItem "telegram_api_id"
          (removeItem "auth_token"
            (send (onRequest b (mkConfig m u d None)) b)))).
Proof.
  destruct (reply_cases (reply_to backend m u d b))
    as [Hres | [Hf | (hdrs & body & H401)]].
  - destruct (reply_to backend m u d b) as [|code hdrs body] eqn:E;
      [contradiction|].
    rewrite (request_resolved _ _ _ _ _ _ _ _ E Hres). left. reflexivity.
  - destruct (request_failed _ _ _ _ _ Hf) as [e ->]. left. reflexivity.
  - rewrite (request_unauthorized _ _ _ _ _ _ _ H401). right. reflexivity.
Qed.

Lemma request_not_authenticating (backend : Config -> Reply) (m : Method)
    (u : string) (d : jsval) (b : Browser) :
  isAuthenticated b = false ->
  isAuthenticated (fst (request backend m u d b)) = false.
Proof.
  intros H. destruct (request_browser_cases backend m u d b) as [-> | ->].
  - exact H.
  - unfold isAuthenticated.
    destruct (unauthorized_store (send (onRequest b (mkConfig m u d None)) b))
      as (Ht & _).
    cbv zeta in Ht. rewrite Ht. reflexivity.
Qed.

Lemma load_isAuthenticated (p : State * Browser) :
  isAuthenticated (snd (load p)) = isAuthenticated (snd p).
Proof. unfold load. destruct (href (snd p)); reflexivity. Qed.

(** X14. The wizard never creates a session: if no token is stored
    before a submit, none is stored after it, whichever of the four
    steps is submitted and whatever the backend answers, an
    "authenticated" answer with a bearer header included. *)
Theorem wizard_never_authenticates (backend : Config -> Reply) (st : State)
    (b : Browser) :
  isAuthenticated b = false ->
  isAuthenticated (snd (submit handleApiSubmit st b)) = false /\
  isAuthenticated (snd (submit (handlePhoneSubmit backend) st b)) = false /\
  isAuthenticated (snd (submit (handleCodeSubmit backend) st b)) = false /\
  isAuthenticated (snd (submit (handlePasswordSubmit backend) st b)) = false.
Proof.
  intros H. unfold submit. rewrite !load_isAuthenticated.
  rewrite handlePhoneSubmit_browser, handleCodeSubmit_browser,
    handlePasswordSubmit_browser.
  repeat split; try (apply request_not_authenticating; exact H).
  unfold handleApiSubmit, isAuthenticated, getItem, setItem.
  cbn [snd localStorage].
  rewrite !lookup_insert_ne by discriminate. exact H.
Qed.

Lemma wizard_never_authenticates_witness :
  isAuthenticated
    (snd (submit handleApiSubmit (wizard step_code filled) handshaking)) = false /\
  isAuthenticated
    (snd (submit (handlePhoneSubmit (replies 200 bearer authenticated_body))
                 (wizard step_code filled) handshaking)) = false /\
  isAuthenticated
    (snd (submit (handleCodeSubmit (replies 200 bearer authenticated_body))
                 (wizard step_code filled) handshaking)) = false /\
  isAuthenticated
    (snd (submit (handlePasswordSubmit (replies 200 bearer authenticated_body))
                 (wizard step_code filled) handshaking)) = false.
Proof.
  apply (wizard_never_authenticates (replies 200 bearer authenticated_body)
           (wizard step_code filled) handshaking).
  reflexivity.
Defined.




End WizardRuns.

(** ** Setup.tsx: where a step can lead, and what is sent as phone number *)

Section WizardSteps.
Import Api AuthService Setup Validators Format Shape RegExp Scenario.
Local Open Scope list_scope.




Lemma bare_phone_run (i : nat) (p : jsstring) :
  run [one [range "1" "9"]; Rep digit 10 (Some 14); Eol] i p = true <->
  bare_phone_shape p.
Proof.
  unfold one. split.
  - intros H.
    apply run_rep in H as (p2 & r2 & -> & H2 & L2 & U2 & H).
    apply run_rep in H as (p3 & r3 & -> & H3 & L3 & U3 & H).
    apply run_eol in H as ->. cbn [within] in U2, U3.
    destruct (length_one p2 L2 U2) as [d ->].
    cbn [forallb] in H2. rewrite andb_true_r in H2.
    apply in_class_range in H2.
    apply (forallb_class _ _ _ in_class_digit) in H3.
    exists d, p3. rewrite app_nil_r. cbn [length].
    repeat split; auto; lia.
  - intros (d & ds & -> & Hd & Hds & Hlen). cbn [length] in Hlen.
    apply run_rep. exists [d], ds.
    split; [reflexivity|]. split.
    { cbn [forallb]. rewrite andb_true_r. apply in_class_range. exact Hd. }
    cbn [length within]. do 2 (split; [lia|]).
    apply run_rep. exists ds, []. rewrite app_nil_r.
    split; [reflexivity|]. split.
    { apply (forallb_class _ _ _ in_class_digit). exact Hds. }
    cbn [within]. do 2 (split; [lia|]). reflexivity.
Qed.

Lemma validatePhoneNumber_plus_iff (p : jsstring) :
  validatePhoneNumber (charCode "+" :: p) = true <-> bare_phone_shape p.
Proof.
  unfold validatePhoneNumber, phoneRegex. rewrite test_bol.
  rewrite <- (bare_phone_run 1 p). unfold one at 1. rewrite run_rep. split.
  - intros (p1 & r1 & E & H1 & L1 & U1 & H). cbn [within] in U1.
    destruct (length_one p1 L1 U1) as [x ->].
    injection E as _ <-. exact H.
  - intros H. exists [charCode "+"], p.
    split; [reflexivity|]. split.
    { cbn [forallb]. rewrite andb_true_r. apply in_class_chr. reflexivity. }
    cbn [length within]. do 2 (split; [lia|]). exact H.
Qed.

(** X17. The phone step sends the typed number with a [+] put in front,
    whatever was typed, so the number sent is a valid one exactly when
    the number was typed without [+], as a digit 1-9 and 10 to 14 more
    digits; a number typed in the form [validatePhoneNumber] accepts is
    never sent in a form it accepts. *)
Theorem phone_step_prepends_plus (st : State) :
  startPayload st =
    VObj [("phone_number", VStr (charCode "+" :: phoneNumber (formData st)))] /\
  (validatePhoneNumber (charCode "+" :: phoneNumber (formData st)) = true <->
   bare_phone_shape (phoneNumber (formData st))) /\
  validatePhoneNumber (phoneNumber (formData st)) &&
  validatePhoneNumber (charCode "+" :: phoneNumber (formData st)) = false.
Proof.
  split; [reflexivity|]. split; [apply validatePhoneNumber_plus_iff|].
  destruct (validatePhoneNumber (phoneNumber (formData st))) eqn:E;
    [|reflexivity].
  apply validatePhoneNumber_head in E as (d & ds & -> & _).
  cbn [andb]. apply validatePhoneNumber_double_plus.
Qed.

End WizardSteps.

(** ** App.tsx, Sidebar.tsx, Header.tsx: the flag, the routes, the logout buttons *)

Section ShellFacts.
Import Api AuthService Scenario.
Local Open Scope list_scope.

(** X18. The two logout buttons remove the token and nothing else: the
    API credentials and [user_data] stay in the store, and no request
    is sent to the backend.  The sidebar assigns /setup to the
    location; the header, without an [onLogout] of its own, navigates
    to /setup inside the application and leaves the flag of [App] as it
    is. *)
Theorem logout_buttons_remove_only_token (r : App.Router) (b : Browser) :
  (getItem "auth_token" (Sidebar.handleLogout b) = None /\
   getApiCredentials (Sidebar.handleLogout b) = getApiCredentials b /\
   getItem "user_data" (Sidebar.handleLogout b) = getItem "user_data" b /\
   network (Sidebar.handleLogout b) = network b /\
   href (Sidebar.handleLogout b) = Some "/setup") /\
  (getItem "auth_token" (snd (Header.handleLogout None (r, b))) = None /\
   getApiCredentials (snd (Header.handleLogout None (r, b))) = getApiCredentials b /\
   getItem "user_data" (snd (Header.handleLogout None (r, b)))
     = getItem "user_data" b /\
   network (snd (Header.handleLogout None (r, b))) = network b /\
   href (snd (Header.handleLogout None (r, b))) = href b /\
   App.path (fst (Header.handleLogout None (r, b))) = "/setup" /\
   App.isAuthenticated (fst (Header.handleLogout None (r, b)))
     = App.isAuthenticated r).
Proof.
  unfold Sidebar.handleLogout, Header.handleLogout, getApiCredentials,
    getItem, assign_href, removeItem, App.navigate.
  cbn [fst snd localStorage network href App.path App.isAuthenticated].
  rewrite lookup_delete_eq.
  rewrite !lookup_delete_ne by discriminate.
  repeat split.
Qed.



(** X20. The header's own logout does not leave the application area:
    the flag of [App] is computed only when the application is mounted,
    so after the button an operator who was authenticated is shown the
    dashboard again, the token being gone. *)
Theorem header_logout_stays_on_dashboard (r : App.Router) (b : Browser) :
  App.isAuthenticated r = true ->
  App.render 1
    (App.isAuthenticated (fst (Header.handleLogout None (r, b))))
    (App.path (fst (Header.handleLogout None (r, b))))
    = Some App.Dashboard /\
  isAuthenticated (snd (Header.handleLogout None (r, b))) = false.
Proof.
  intros H. unfold Header.handleLogout, App.navigate.
  cbn [fst snd App.isAuthenticated App.path]. rewrite H.
  split; [reflexivity|].
  unfold isAuthenticated, getItem, removeItem. cbn [localStorage].
  rewrite lookup_delete_eq. reflexivity.
Qed.

Lemma header_logout_stays_on_dashboard_witness :
  App.render 1
    (App.isAuthenticated
       (fst (Header.handleLogout None (App.mkRouter true "/channels", signed_in))))
    (App.path
       (fst (Header.handleLogout None (App.mkRouter true "/channels", signed_in))))
    = Some App.Dashboard /\
  isAuthenticated
    (snd (Header.handleLogout None (App.mkRouter true "/channels", signed_in)))
    = false.
Proof.
  apply (header_logout_stays_on_dashboard (App.mkRouter true "/channels")
           signed_in).
  reflexivity.
Defined.

(** X21. After a 401 the token is gone, so when the page is loaded anew
    at /setup the flag of [App] is decided by the status probe alone:
    with a probe answered ok the dashboard is shown, otherwise the
    setup page. *)
Theorem expiry_then_probe_decides (backend : Config -> Reply) (m : Method)
    (u : string) (d : jsval) (st : Setup.State) (b : Browser)
    (hdrs : gmap string jsstring) (body : jsval) (probe : option bool) :
  reply_to backend m u d b = Http 401 hdrs body ->
  App.checkAuth probe (snd (Setup.call backend m u d st b))
    = match probe with Some true => true | _ => false end /\
  App.render 1
    (App.checkAuth probe (snd (Setup.call backend m u d st b)))
    (location (snd (Setup.call backend m u d st b)))
    = Some (match probe with
            | Some true => App.Dashboard
            | _ => App.Setup
            end).
Proof.
  intros H. unfold Setup.call.
  rewrite (request_unauthorized _ _ _ _ _ _ _ H). cbn [fst].
  destruct (unauthorized_store (send (onRequest b (mkConfig m u d None)) b))
    as (Ht & _ & _ & Hhref).
  cbv zeta in Ht, Hhref.
  unfold Setup.load. cbn [snd]. rewrite Hhref. cbn [snd location].
  assert (Hc : App.checkAuth probe
                 (mkBrowser
                    (localStorage
                       (assign_href "/setup"
                          (removeItem "telegram_api_hash"
                             (removeItem "telegram_api_id"
                                (removeItem "auth_token"
                                   (send (onRequest b (mkConfig m u d None)) b))))))
                    "/setup" None
                    (network
                       (assign_href "/setup"
                          (removeItem "telegram_api_hash"
                             (removeItem "telegram_api_id"
                                (removeItem "auth_token"
                                   (send (onRequest b (mkConfig m u d None)) b)))))))
               = match probe with Some true => true | _ => false end).
  { unfold App.checkAuth, getItem in *. cbn [localStorage] in *.
    rewrite Ht. reflexivity. }
  rewrite Hc. split; [reflexivity|].
  destruct probe as [[|]|]; reflexivity.
Qed.

Lemma expiry_then_probe_decides_witness :
  App.checkAuth (Some true)
    (snd (Setup.call (replies 401 ∅ error_body) GET "/channels" VUndefined
                     Setup.initial signed_in))
    = true /\
  App.render 1
    (App.checkAuth (Some true)
       (snd (Setup.call (replies 401 ∅ error_body) GET "/channels" VUndefined
                        Setup.initial signed_in)))
    (location
       (snd (Setup.call (replies 401 ∅ error_body) GET "/channels" VUndefined
                        Setup.initial signed_in)))
    = Some App.Dashboard.
Proof.
  apply (expiry_then_probe_decides (replies 401 ∅ error_body) GET "/channels"
           VUndefined Setup.initial signed_in ∅ error_body (Some true)).
  reflexivity.
Defined.

End ShellFacts.

(** ** Channels.tsx: adding a channel *)

Section ChannelFacts.
Import Api RegExp Validators Scenario.
Local Open Scope list_scope.

Lemma loadChannels_network (backend : Config -> Reply) (st : Channels.State)
    (b : Browser) :
  network (snd (Channels.loadChannels backend st b)) =
  onRequest b (mkConfig GET "/channels" VUndefined None) :: network b.
Proof.
  unfold Channels.loadChannels, get.
  rewrite <- (request_network backend GET "/channels" VUndefined b).
  destruct (request backend GET "/channels" VUndefined b). reflexivity.
Qed.

Lemma handleAddChannel_network (backend : Config -> Reply)
    (st : Channels.State) (b : Browser) :
  startsWith (js "@") (Channels.newChannelUsername st) = true ->
  exists l,
    network (snd (Channels.handleAddChannel backend st b)) =
    l ++ onRequest b (mkConfig POST "/channels"
                        (VObj [("username", VStr (Channels.newChannelUsername st))])
                        None)
      :: network b.
Proof.
  intros Hg. unfold Channels.handleAddChannel, post. rewrite Hg. cbn [negb].
  pose proof (request_network backend POST "/channels"
                (VObj [("username", VStr (Channels.newChannelUsername st))]) b)
    as Hn.
  destruct (request backend POST "/channels" _ b) as [b1 [response|e]].
  - cbn [fst] in Hn.
    pose proof (loadChannels_network backend
                  (Channels.setIsAddDialogOpen false
                     (Channels.setNewChannelUsername []
                        (Channels.setAddingChannel true st))) b1) as Hl.
    destruct (Channels.loadChannels backend _ b1) as [st3 b2].
    cbn [snd] in *. rewrite Hl, Hn.
    exists [onRequest b1 (mkConfig GET "/channels" VUndefined None)].
    reflexivity.
  - cbn [fst snd] in *. exists []. exact Hn.
Qed.

(** X22. [handleAddChannel] is gated: the handler returns with the page
    and the browser exactly as they were, no request sent, if and only
    if the typed username does not start with [@]. *)
Theorem handleAddChannel_gate (backend : Config -> Reply)
    (st : Channels.State) (b : Browser) :
  Channels.handleAddChannel backend st b = (st, b) <->
  startsWith (js "@") (Channels.newChannelUsername st) = false.
Proof.
  split.
  - intros H.
    destruct (startsWith (js "@") (Channels.newChannelUsername st)) eqn:Hg;
      [|reflexivity].
    destruct (handleAddChannel_network backend st b Hg) as [l Hl].
    rewrite H in Hl. cbn [snd] in Hl.
    apply (f_equal (@length Config)) in Hl.
    rewrite length_app in Hl. cbn [length] in Hl. lia.
  - intros Hg. unfold Channels.handleAddChannel. rewrite Hg. reflexivity.
Qed.

Lemma validateChannelUsername_head (u : jsstring) :
  validateChannelUsername u = true -> startsWith (js "@") u = true.
Proof.
  unfold validateChannelUsername, usernameRegex, one. rewrite test_bol.
  intros H.
  apply run_rep in H as (p1 & r1 & -> & H1 & L1 & U1 & _).
  cbn [Format.within] in U1.
  destruct (length_one p1 L1 U1) as [x ->].
  cbn [forallb] in H1. rewrite andb_true_r in H1.
  apply in_class_chr in H1 as ->.
  change (js "@") with [charCode "@"]. cbn [app].
  rewrite startsWith_cons. apply N.eqb_refl.
Qed.

(** X23. Every username that [validateChannelUsername] accepts passes
    the gate of [handleAddChannel] and is posted to /channels as it was
    typed. *)
Theorem valid_username_is_posted (backend : Config -> Reply)
    (st : Channels.State) (b : Browser) :
  validateChannelUsername (Channels.newChannelUsername st) = true ->
  exists l,
    network (snd (Channels.handleAddChannel backend st b)) =
    l ++ onRequest b (mkConfig POST "/channels"
                        (VObj [("username", VStr (Channels.newChannelUsername st))])
                        None)
      :: network b.
Proof.
  intros H. apply handleAddChannel_network.
  apply validateChannelUsername_head. exact H.
Qed.

Lemma valid_username_is_posted_witness :
  exists l,
    network (snd (Channels.handleAddChannel (replies 200 ∅ VNull)
                    (Channels.mkState VUndefined false true (js "@rocq_news") false)
                    signed_in)) =
    l ++ onRequest signed_in
           (mkConfig POST "/channels"
              (VObj [("username",
                      VStr (Channels.newChannelUsername
                              (Channels.mkState VUndefined false true
                                 (js "@rocq_news") false)))])
              None)
      :: network signed_in.
Proof.
  apply (valid_username_is_posted (replies 200 ∅ VNull)
           (Channels.mkState VUndefined false true (js "@rocq_news") false)
           signed_in).
  reflexivity.
Defined.

(** X24. When the request that adds the channel fails other than by a
    401 (no reply, or a status outside 2xx except 401), the form is left
    for another try: the typed username, the dialog and the list of
    channels are as before and the busy flag is off; the list is not
    reloaded, the POST is the only request sent, and the store and the
    location are untouched. *)
Theorem failed_add_keeps_form (backend : Config -> Reply)
    (st : Channels.State) (b : Browser) :
  startsWith (js "@") (Channels.newChannelUsername st) = true ->
  fails_not_401
    (reply_to backend POST "/channels"
       (VObj [("username", VStr (Channels.newChannelUsername st))]) b) ->
  fst (Channels.handleAddChannel backend st b) =
    Channels.mkState (Channels.channels st) (Channels.loading st)
      (Channels.isAddDialogOpen st) (Channels.newChannelUsername st) false /\
  snd (Channels.handleAddChannel backend st b) =
    send (onRequest b (mkConfig POST "/channels"
                         (VObj [("username", VStr (Channels.newChannelUsername st))])
                         None)) b.
Proof.
  intros Hg Hf. unfold Channels.handleAddChannel, post. rewrite Hg. cbn [negb].
  destruct (request_failed _ _ _ _ _ Hf) as [e ->].
  split; reflexivity.
Qed.

Lemma failed_add_keeps_form_witness :
  fst (Channels.handleAddChannel (replies 500 ∅ error_body)
         (Channels.mkState VUndefined false true (js "@rocq_news") true)
         signed_in) =
    Channels.mkState VUndefined false true (js "@rocq_news") false /\
  snd (Channels.handleAddChannel (replies 500 ∅ error_body)
         (Channels.mkState VUndefined false true (js "@rocq_news") true)
         signed_in) =
    send (onRequest signed_in
            (mkConfig POST "/channels"
               (VObj [("username",
                       VStr (Channels.newChannelUsername
                               (Channels.mkState VUndefined false true
                                  (js "@rocq_news") true)))])
               None)) signed_in.
Proof.
  apply (failed_add_keeps_form (replies 500 ∅ error_body)
           (Channels.mkState VUndefined false true (js "@rocq_news") true)
           signed_in).
  - reflexivity.
  - simpl. split; [reflexivity | discriminate].
Defined.

End ChannelFacts.

(** ** validators.ts: e-mail addresses *)

Section EmailFacts.
Import RegExp Format Shape Validators.
Local Open Scope list_scope.

Lemma in_class_plain (c : N) :
  (c <= 65535)%N ->
  in_class not_space_or_at c = true <-> is_plain c.
Proof.
  intros Hc. unfold is_plain, is_white_space, in_class, not_space_or_at.
  cbn [existsb fst snd]. change (charCode "@") with 64%N.
  rewrite orb_false_r, !orb_true_iff, !orb_false_iff, !andb_true_iff,
    !andb_false_iff, !N.leb_le, !N.leb_gt, !N.eqb_neq.
  lia.
Qed.

Lemma forallb_plain (s : jsstring) :
  code_units s ->
  forallb (in_class not_space_or_at) s = true <-> Forall is_plain s.
Proof.
  intros Hs. induction Hs as [|c s Hc Hs IH]; cbn [forallb].
  - split; auto.
  - rewrite andb_true_iff, IH, (in_class_plain c Hc). split.
    + intros [? ?]. constructor; assumption.
    + intros HF. inversion HF; subst. auto.
Qed.

Lemma code_units_app (a b : jsstring) :
  code_units (a ++ b) <-> code_units a /\ code_units b.
Proof. unfold code_units. apply Forall_app. Qed.

Lemma code_units_cons (x : N) (a : jsstring) :
  code_units (x :: a) -> code_units a.
Proof. unfold code_units. intros H. inversion H; assumption. Qed.

Lemma nonempty_length {A : Type} (l : list A) : 1 <= length l <-> l <> [].
Proof. destruct l; simpl; split; intros; try lia; congruence. Qed.

(** X25. On a string of 16-bit code units, [validateEmail] accepts
    exactly the strings made of a non-empty part, an [@], a non-empty
    part, a dot and a non-empty part, where no part holds white space
    or an [@]. *)
Theorem validateEmail_iff_shape (s : jsstring) :
  code_units s ->
  validateEmail s = true <-> email_shape s.
Proof.
  intros Hs. unfold validateEmail, emailRegex, plus, one.
  rewrite test_bol. split.
  - intros H.
    apply run_rep in H as (a & r1 & -> & Ha & La & _ & H).
    apply run_rep in H as (p1 & r2 & -> & H1 & L1 & U1 & H).
    apply run_rep in H as (b & r3 & -> & Hb & Lb & _ & H).
    apply run_rep in H as (p2 & r4 & -> & H2 & L2 & U2 & H).
    apply run_rep in H as (c & r5 & -> & Hc & Lc & _ & H).
    apply run_eol in H as ->. cbn [within] in U1, U2.
    destruct (length_one p1 L1 U1) as [x ->].
    destruct (length_one p2 L2 U2) as [y ->].
    cbn [forallb] in H1, H2. rewrite andb_true_r in H1, H2.
    apply in_class_chr in H1 as ->. apply in_class_chr in H2 as ->.
    rewrite app_nil_r in *.
    apply code_units_app in Hs as [Hsa Hs]. cbn [app] in Hs.
    apply code_units_cons in Hs.
    apply code_units_app in Hs as [Hsb Hs]. cbn [app] in Hs.
    apply code_units_cons in Hs.
    exists a, b, c. split; [reflexivity|].
    rewrite <- !nonempty_length.
    rewrite <- (forallb_plain a Hsa), <- (forallb_plain b Hsb),
      <- (forallb_plain c Hs).
    repeat split; assumption.
  - intros (a & b & c & -> & Na & Nb & Nc & Ha & Hb & Hc).
    apply code_units_app in Hs as [Hsa Hs].
    apply code_units_cons in Hs.
    apply code_units_app in Hs as [Hsb Hs].
    apply code_units_cons in Hs.
    apply nonempty_length in Na, Nb, Nc.
    apply (forallb_plain a Hsa) in Ha.
    apply (forallb_plain b Hsb) in Hb.
    apply (forallb_plain c Hs) in Hc.
    apply run_rep. exists a, (charCode "@" :: b ++ charCode "." :: c).
    split; [reflexivity|]. split; [exact Ha|].
    cbn [within]. do 2 (split; [auto|]).
    apply run_rep. exists [charCode "@"], (b ++ charCode "." :: c).
    split; [reflexivity|]. split.
    { cbn [forallb]. rewrite andb_true_r. apply in_class_chr. reflexivity. }
    cbn [length within]. do 2 (split; [lia|]).
    apply run_rep. exists b, (charCode "." :: c).
    split; [reflexivity|]. split; [exact Hb|].
    cbn [within]. do 2 (split; [auto|]).
    apply run_rep. exists [charCode "."], c.
    split; [reflexivity|]. split.
    { cbn [forallb]. rewrite andb_true_r. apply in_class_chr. reflexivity. }
    cbn [length within]. do 2 (split; [lia|]).
    apply run_rep. exists c, []. rewrite app_nil_r.
    split; [reflexivity|]. split; [exact Hc|].
    cbn [within]. do 2 (split; [auto|]). reflexivity.
Qed.

Lemma validateEmail_iff_shape_witness :
  validateEmail (js "ops@mail.example.org") = true <->
  email_shape (js "ops@mail.example.org").
Proof.
  apply (validateEmail_iff_shape (js "ops@mail.example.org")).
  unfold code_units. repeat constructor; vm_compute; discriminate.
Defined.

Example validateEmail_samples :
  validateEmail (js "ops@mail.example.org") = true /\
  validateEmail (js "ops@example") = false /\
  validateEmail (js "ops@@example.org") = false /\
  validateEmail (js "o ps@example.org") = false /\
  validateEmail (js "@example.org") = false /\
  validateEmail (js "ops@example.") = false.
Proof. vm_compute. repeat split. Qed.

End EmailFacts.
